(** * UniVendor storefront forms: checkout wizard and variant matrix

    A shallow embedding of the event handlers of
    [CheckoutForm] (the three-step checkout wizard) and of [ProductForm]
    (the tabbed product editor with its colour-by-size variant generator),
    followed by the properties the specification states about them.

    React state is modelled as a record, every event handler as a function
    from the state before the event to the state after it, paired with the
    toasts the handler raises.  JavaScript strings are sequences of UTF-16
    code units, JavaScript numbers are IEEE-754 binary64 floats. *)

From Stdlib Require Import Floats.
From stdpp Require Import base decidable numbers list strings.

Set Default Proof Using "Type".

(* ===================================================================== *)
(** ** JavaScript values *)
(* ===================================================================== *)

Module JS.

(** A string is its sequence of UTF-16 code units. *)
Abbreviation jsstring := (list N).

(** An ASCII literal as a JavaScript string. *)
Definition js (s : string) : jsstring :=
  (λ a, Ascii.N_of_ascii a) <$> String.list_ascii_of_string s.

(** ECMAScript [WhiteSpace] and [LineTerminator] code points, the
    characters [String.prototype.trim] strips.  All of them lie in the
    basic plane, so each is a single code unit. *)
Definition isWhiteSpace (c : N) : bool :=
  ((9 <=? c) && (c <=? 13)          (* TAB, LF, VT, FF, CR *)
   || (c =? 32) || (c =? 160)       (* SP, NBSP *)
   || (c =? 5760)                   (* U+1680 *)
   || ((8192 <=? c) && (c <=? 8202))(* U+2000 .. U+200A *)
   || (c =? 8232) || (c =? 8233)    (* LS, PS *)
   || (c =? 8239) || (c =? 8287)    (* U+202F, U+205F *)
   || (c =? 12288) || (c =? 65279)  (* U+3000, BOM *)
  )%N.

Fixpoint trimStart (s : jsstring) : jsstring :=
  match s with
  | c :: s' => if isWhiteSpace c then trimStart s' else s
  | [] => []
  end.

Definition trimEnd (s : jsstring) : jsstring :=
  reverse (trimStart (reverse s)).

(** [s.trim()] *)
Definition trim (s : jsstring) : jsstring := trimEnd (trimStart s).

(** [s.substring(0, n)] *)
Definition substring0 (n : nat) (s : jsstring) : jsstring := take n s.

(** Truthiness of a string: every string but the empty one. *)
Definition truthy (s : jsstring) : bool :=
  match s with [] => false | _ :: _ => true end.

(** Truthiness of a [string | null] value. *)
Definition truthyOpt (s : option jsstring) : bool :=
  match s with Some s => truthy s | None => false end.

(** Truthiness of a number: everything but [0], [-0] and [NaN]. *)
Definition truthyNumber (x : float) : bool :=
  negb (PrimFloat.is_nan x) && negb (PrimFloat.is_zero x).

(** [arr.includes(x)] on an array of strings. *)
Definition includes (x : jsstring) (arr : list jsstring) : bool :=
  bool_decide (x ∈ arr).

End JS.
Import JS.

(* ===================================================================== *)
(** ** Checkout wizard ([CheckoutForm]) *)
(* ===================================================================== *)

Module Checkout.

Inductive Step := shipping | payment | review.

Inductive PaymentMethod := cod | paypal | stripe.

Inductive AddressTab := saved | new.

Record CustomerAddress := {
  ca_id : Z;
  ca_customerId : Z;
  ca_addressLine1 : jsstring;
  ca_addressLine2 : option jsstring;
  ca_city : jsstring;
  ca_state : jsstring;
  ca_postalCode : jsstring;
  ca_country : jsstring;
  ca_isDefault : option bool;
  ca_createdAt : jsstring
}.

Record ShippingAddress := {
  addressLine1 : jsstring;
  addressLine2 : option jsstring;
  city : jsstring;
  state : jsstring;
  postalCode : jsstring;
  country : jsstring
}.

(** The values held by the form.  [paymentMethod] is [None] when the
    form holds [undefined] there, the case the schema's
    [required_error] is written for. *)
Record CheckoutFormValues := {
  shippingAddressId : option Z;
  shippingAddress : ShippingAddress;
  paymentMethod : option PaymentMethod;
  notes : option jsstring
}.

Record State := {
  step : Step;
  addressTab : AddressTab;
  selectedAddress : option CustomerAddress;
  values : CheckoutFormValues
}.

Definition defaultValues : CheckoutFormValues := {|
  shippingAddressId := None;
  shippingAddress := {|
    addressLine1 := js ""; addressLine2 := Some (js "");
    city := js ""; state := js ""; postalCode := js "";
    country := js "India" |};
  paymentMethod := Some cod;
  notes := Some (js "")
|}.

Definition initial : State := {|
  step := shipping; addressTab := saved;
  selectedAddress := None; values := defaultValues
|}.

Definition setStep (s : Step) (st : State) : State :=
  {| step := s; addressTab := addressTab st;
     selectedAddress := selectedAddress st; values := values st |}.

Definition setAddressTab (t : AddressTab) (st : State) : State :=
  {| step := step st; addressTab := t;
     selectedAddress := selectedAddress st; values := values st |}.

Definition setValues (v : CheckoutFormValues) (st : State) : State :=
  {| step := step st; addressTab := addressTab st;
     selectedAddress := selectedAddress st; values := v |}.

(** [z.string().min(1, ...)] *)
Definition min1 (s : jsstring) : bool := bool_decide (1 ≤ length s).

(** [checkoutFormSchema.shape.shippingAddress]: five required strings,
    [addressLine2] optional. *)
Definition shippingAddressSchema (a : ShippingAddress) : bool :=
  min1 (addressLine1 a) && min1 (city a) && min1 (state a)
  && min1 (postalCode a) && min1 (country a).

(** [checkoutFormSchema.shape.paymentMethod]: one of the enum's values. *)
Definition paymentMethodSchema (p : option PaymentMethod) : bool :=
  match p with Some _ => true | None => false end.

(** The field names [handleNextStep] passes to [form.trigger]. *)
Inductive FieldName := f_shippingAddress | f_paymentMethod.

(** [await form.trigger(name)]: the resolver runs the schema and the
    result is whether the named field (with its sub-fields) is free of
    errors.  Only this boolean is modelled; the messages recorded for
    rendering are not part of the wizard's state. *)
Definition trigger (name : FieldName) (v : CheckoutFormValues) : bool :=
  match name with
  | f_shippingAddress => shippingAddressSchema (shippingAddress v)
  | f_paymentMethod => paymentMethodSchema (paymentMethod v)
  end.

Definition handleNextStep (st : State) : State :=
  match step st with
  | shipping =>
      let shippingValid := trigger f_shippingAddress (values st) in
      if shippingValid then setStep payment st else st
  | payment =>
      let paymentValid := trigger f_paymentMethod (values st) in
      if paymentValid then setStep review st else st
  | review => st
  end.

Definition handlePreviousStep (st : State) : State :=
  match step st with
  | payment => setStep shipping st
  | review => setStep payment st
  | shipping => st
  end.

#[global] Instance CustomerAddress_eq_dec : EqDecision CustomerAddress.
Proof. solve_decision. Defined.

(** The effect on [selectedAddress], run after it has changed to [a]:
    the address is copied into the form. *)
Definition copyAddress (a : CustomerAddress) (v : CheckoutFormValues)
  : CheckoutFormValues :=
  {| shippingAddressId := Some (ca_id a);
     shippingAddress := {|
       addressLine1 := ca_addressLine1 a;
       addressLine2 :=
         Some (match ca_addressLine2 a with
               | Some l2 => if truthy l2 then l2 else js ""
               | None => js ""
               end);
       city := ca_city a; state := ca_state a;
       postalCode := ca_postalCode a; country := ca_country a |};
     paymentMethod := paymentMethod v;
     notes := notes v |}.

(** [setSelectedAddress(a)] with the effect that follows.  The effect is
    keyed on [selectedAddress]: when [a] is the very object that is
    selected already, the state does not change and no effect runs, so
    the form keeps what it holds.  [sameObject] says whether [a] is that
    object, which it can only be when the selected address reads as [a]
    does.  Any other object becomes the selected address and is copied
    into the form. *)
Definition selectAddress (sameObject : bool) (a : CustomerAddress) (st : State)
  : State :=
  if sameObject && bool_decide (selectedAddress st = Some a) then st
  else {| step := step st; addressTab := addressTab st;
          selectedAddress := Some a;
          values := copyAddress a (values st) |}.

(** Everything the user can do to the wizard. *)
Inductive Event :=
| ClickNext                       (* "Next: Payment", "Next: Review" *)
| ClickBack                       (* "Back: Shipping", "Back: Payment" *)
| ClickChangeShipping             (* "Change" beside the address *)
| ClickChangePayment              (* "Change" beside the payment method *)
| SwitchAddressTab (t : AddressTab)
| SelectAddress (sameObject : bool) (a : CustomerAddress)
| EditFields (v : CheckoutFormValues).

(** A control of the review card: it is rendered, and so can be
    clicked, on the review step only. *)
Definition onReviewCard (onClick : State → State) (st : State) : State :=
  match step st with
  | review => onClick st
  | shipping | payment => st
  end.

Definition handle (e : Event) (st : State) : State :=
  match e with
  | ClickNext => handleNextStep st
  | ClickBack => handlePreviousStep st
  | ClickChangeShipping => onReviewCard (setStep shipping) st
  | ClickChangePayment => onReviewCard (setStep payment) st
  | SwitchAddressTab t => setAddressTab t st
  | SelectAddress sameObject a => selectAddress sameObject a st
  | EditFields v => setValues v st
  end.

(** Position of a step in the wizard's order. *)
Definition index (s : Step) : nat :=
  match s with shipping => 0 | payment => 1 | review => 2 end.

(** The field group [handleNextStep] validates on each step. *)
Definition groupOf (s : Step) : option FieldName :=
  match s with
  | shipping => Some f_shippingAddress
  | payment => Some f_paymentMethod
  | review => None
  end.

End Checkout.

(* ===================================================================== *)
(** ** Product editor ([ProductForm]) *)
(* ===================================================================== *)

Set Warnings "-inexact-float".

Module Dimensions.
Record t := { length : option float; width : option float; height : option float }.
End Dimensions.

(** One row of the generated variant matrix, the object literal built in
    the "Generate Variant Matrix" handler. *)
Module VariantRecord.
Record t := {
  id : jsstring;
  color : jsstring;
  size : jsstring;
  sku : jsstring;
  sellingPrice : float;
  mrp : float;
  purchasePrice : float;
  gst : float;
  inventoryQuantity : float;
  images : list jsstring;
  imageUrl : option jsstring
}.
End VariantRecord.

Module ProductForm.

(** The values [activeTab] takes: the six [TabsTrigger] values, and
    ["attributes"], which the "Next: Attributes" button sets although no
    tab carries that value. *)
Module Tab.
Inductive t := basic | pricing | inventory | category | media | variants | attributes.
End Tab.

Record ProductFormValues := {
  name : jsstring;
  description : option jsstring;
  purchasePrice : option float;
  sellingPrice : float;
  mrp : option float;
  gst : option float;
  sku : option jsstring;
  barcode : option jsstring;
  weight : option float;
  dimensions : option Dimensions.t;
  inventoryQuantity : option float;
  status : jsstring;
  categoryId : option float;
  featuredImageUrl : option jsstring;
  images : list jsstring;
  tags : list jsstring
}.

(** The component's state, as far as the handlers below read or write
    it (the tag input, the bulk-edit fields and the submit spinner are
    left out). *)
Record State := {
  activeTab : Tab.t;
  values : ProductFormValues;
  selectedColors : list jsstring;
  selectedSizes : list jsstring;
  generatedVariants : list VariantRecord.t;
  customColor : jsstring;
  customSize : jsstring
}.

Definition setActiveTab (t : Tab.t) (st : State) : State :=
  {| activeTab := t; values := values st;
     selectedColors := selectedColors st; selectedSizes := selectedSizes st;
     generatedVariants := generatedVariants st;
     customColor := customColor st; customSize := customSize st |}.

Definition setSelectedColors (l : list jsstring) (st : State) : State :=
  {| activeTab := activeTab st; values := values st;
     selectedColors := l; selectedSizes := selectedSizes st;
     generatedVariants := generatedVariants st;
     customColor := customColor st; customSize := customSize st |}.

Definition setSelectedSizes (l : list jsstring) (st : State) : State :=
  {| activeTab := activeTab st; values := values st;
     selectedColors := selectedColors st; selectedSizes := l;
     generatedVariants := generatedVariants st;
     customColor := customColor st; customSize := customSize st |}.

Definition setGeneratedVariants (l : list VariantRecord.t) (st : State) : State :=
  {| activeTab := activeTab st; values := values st;
     selectedColors := selectedColors st; selectedSizes := selectedSizes st;
     generatedVariants := l;
     customColor := customColor st; customSize := customSize st |}.

Definition setCustomColor (s : jsstring) (st : State) : State :=
  {| activeTab := activeTab st; values := values st;
     selectedColors := selectedColors st; selectedSizes := selectedSizes st;
     generatedVariants := generatedVariants st;
     customColor := s; customSize := customSize st |}.

Definition setCustomSize (s : jsstring) (st : State) : State :=
  {| activeTab := activeTab st; values := values st;
     selectedColors := selectedColors st; selectedSizes := selectedSizes st;
     generatedVariants := generatedVariants st;
     customColor := customColor st; customSize := s |}.

(** What a handler shows the user. *)
Inductive Attribute := Color | Size.

#[global] Instance Attribute_eq_dec : EqDecision Attribute.
Proof. solve_decision. Defined.

Inductive Toast :=
| CannotGenerateVariants          (* destructive, "Cannot generate variants" *)
| VariantsGenerated (n : nat)     (* "Created n variants from your selection" *)
| AlreadyAdded (a : Attribute)    (* destructive, "Color/Size already added" *)
| VariantRemoved (color size : jsstring).

(** A handler's outcome: the next state and the toasts raised. *)
Definition Outcome : Type := State * list Toast.

(** A rendered [<Button disabled=...>]: a disabled button delivers no
    click. *)
Definition button (disabled : bool) (onClick : State → Outcome) (st : State) : Outcome :=
  if disabled then (st, []) else onClick st.

(** *** Attribute sets

    The colour and the size controls are written twice in the source,
    word for word up to the names; [Attribute] selects the copy. *)

Definition selected (a : Attribute) (st : State) : list jsstring :=
  match a with Color => selectedColors st | Size => selectedSizes st end.

Definition setSelected (a : Attribute) (l : list jsstring) (st : State) : State :=
  match a with Color => setSelectedColors l st | Size => setSelectedSizes l st end.

Definition custom (a : Attribute) (st : State) : jsstring :=
  match a with Color => customColor st | Size => customSize st end.

Definition setCustom (a : Attribute) (s : jsstring) (st : State) : State :=
  match a with Color => setCustomColor s st | Size => setCustomSize s st end.

Definition predefined (a : Attribute) : list jsstring :=
  match a with
  | Color => [js "Red"; js "Blue"; js "Green"; js "Black"; js "White"]
  | Size => [js "S"; js "M"; js "L"; js "XL"; js "XXL"]
  end.

(** The array a badge click computes from the current one. *)
Definition toggleAttribute (set : list jsstring) (label : jsstring) : list jsstring :=
  if includes label set
  then filter (λ c, c ≠ label) set
  else set ++ [label].

(** [onClick] of a predefined badge. *)
Definition badgeOnClick (a : Attribute) (label : jsstring) (st : State) : Outcome :=
  (setSelected a (toggleAttribute (selected a st) label) st, []).

(** [onClick] of the badge of a custom label: removal only. *)
Definition customBadgeOnClick (a : Attribute) (label : jsstring) (st : State) : Outcome :=
  (setSelected a (filter (λ c, c ≠ label) (selected a st)) st, []).

(** [onChange] of the custom-label input. *)
Definition inputOnChange (a : Attribute) (value : jsstring) (st : State) : Outcome :=
  (setCustom a value st, []).

(** [onKeyDown] of the custom-label input. *)
Definition inputOnKeyDown (a : Attribute) (key : jsstring) (st : State) : Outcome :=
  if bool_decide (key = js "Enter") && truthy (trim (custom a st)) then
    if negb (includes (trim (custom a st)) (selected a st)) then
      (setCustom a (js "")
         (setSelected a (selected a st ++ [trim (custom a st)]) st), [])
    else (st, [AlreadyAdded a])
  else (st, []).

(** [onClick] of "Add Color" / "Add Size". *)
Definition addOnClick (a : Attribute) (st : State) : Outcome :=
  if truthy (trim (custom a st)) && negb (includes (trim (custom a st)) (selected a st)) then
    (setCustom a (js "")
       (setSelected a (selected a st ++ [trim (custom a st)]) st), [])
  else if includes (trim (custom a st)) (selected a st) then
    (st, [AlreadyAdded a])
  else (st, []).

Definition addDisabled (a : Attribute) (st : State) : bool :=
  negb (truthy (trim (custom a st))).

(** The "Add Color" / "Add Size" button as rendered. *)
Definition addButton (a : Attribute) (st : State) : Outcome :=
  button (addDisabled a st) (addOnClick a) st.

(** *** The variant matrix *)

Section Generator.

(** [String.prototype.toUpperCase]: the runtime's Unicode case
    mapping, taken as given. *)
Variable toUpperCase : jsstring → jsstring.

(** [randomId k] is what the [k]-th evaluation (from 0) of
    [Math.random().toString(36).substring(2, 9)] yields during one
    click. *)
Variable randomId : nat → jsstring.

(** [form.getValues("sellingPrice") || 0] *)
Definition basePriceOf (v : ProductFormValues) : float :=
  if truthyNumber (sellingPrice v) then sellingPrice v else 0%float.

(** [form.getValues("name") ? name.substring(0, 3).toUpperCase() : "PRD"] *)
Definition namePrefixOf (v : ProductFormValues) : jsstring :=
  if truthy (name v) then toUpperCase (substring0 3 (name v)) else js "PRD".

(** [form.getValues("sku") || (...)] *)
Definition baseSkuOf (v : ProductFormValues) : jsstring :=
  match sku v with
  | Some s => if truthy s then s else namePrefixOf v
  | None => namePrefixOf v
  end.

Definition newVariant (id color size baseSku : jsstring) (basePrice : float)
  : VariantRecord.t :=
  {| VariantRecord.id := id;
     VariantRecord.color := color;
     VariantRecord.size := size;
     VariantRecord.sku := baseSku ++ js "-" ++ substring0 1 color ++ size;
     VariantRecord.sellingPrice := basePrice;
     VariantRecord.mrp := (basePrice * 1.2)%float;
     VariantRecord.purchasePrice := (basePrice * 0.7)%float;
     VariantRecord.gst := 18%float;
     VariantRecord.inventoryQuantity := 10%float;
     VariantRecord.images := [];
     VariantRecord.imageUrl := None |}.

(** The loops' state: the array being filled and the number of
    identifiers drawn so far. *)
Record Loop := { pushed : list VariantRecord.t; drawn : nat }.

(** Body of the inner loop: build one record and push it. *)
Definition pushVariant (baseSku : jsstring) (basePrice : float)
    (color : jsstring) (acc : Loop) (size : jsstring) : Loop :=
  {| pushed := pushed acc
       ++ [newVariant (randomId (drawn acc)) color size baseSku basePrice];
     drawn := S (drawn acc) |}.

(** [for (const size of selectedSizes) { ... }] *)
Definition forSizes (baseSku : jsstring) (basePrice : float)
    (sizes : list jsstring) (acc : Loop) (color : jsstring) : Loop :=
  fold_left (pushVariant baseSku basePrice color) sizes acc.

(** [for (const color of selectedColors) { for ... }] *)
Definition forColors (baseSku : jsstring) (basePrice : float)
    (colors sizes : list jsstring) (acc : Loop) : Loop :=
  fold_left (forSizes baseSku basePrice sizes) colors acc.

Definition generateDisabled (st : State) : bool :=
  bool_decide (length (selectedColors st) = 0)
  || bool_decide (length (selectedSizes st) = 0).

(** [onClick] of "Generate Variant Matrix". *)
Definition generateOnClick (st : State) : Outcome :=
  if bool_decide (length (selectedColors st) = 0)
     || bool_decide (length (selectedSizes st) = 0)
  then (st, [CannotGenerateVariants])
  else
    let basePrice := basePriceOf (values st) in
    let baseSku := baseSkuOf (values st) in
    let variants :=
      pushed (forColors baseSku basePrice
                (selectedColors st) (selectedSizes st)
                {| pushed := []; drawn := 0 |}) in
    (setGeneratedVariants variants st, [VariantsGenerated (length variants)]).

(** The "Generate Variant Matrix" button as rendered. *)
Definition generateButton (st : State) : Outcome :=
  button (generateDisabled st) generateOnClick st.

End Generator.

(** [onClick] of "Clear All". *)
Definition clearAllOnClick (st : State) : Outcome :=
  (setGeneratedVariants [] st, []).

(** [onClick] of the delete button in the row of [variant]. *)
Definition removeOnClick (variant : VariantRecord.t) (st : State) : Outcome :=
  (setGeneratedVariants
     (filter (λ v, VariantRecord.id v ≠ VariantRecord.id variant)
        (generatedVariants st)) st,
   [VariantRemoved (VariantRecord.color variant) (VariantRecord.size variant)]).

(** *** Tabs *)

(** [onValueChange] of the tab strip: a click on any trigger shows its
    tab. *)
Definition tabsOnValueChange (t : Tab.t) (st : State) : State :=
  setActiveTab t st.

(** [onClick] of the "Next: ..." button of the tab shown.  The variants
    tab has none, and nothing is shown for ["attributes"]. *)
Definition nextOnClick (st : State) : State :=
  match activeTab st with
  | Tab.basic => setActiveTab Tab.pricing st
  | Tab.pricing => setActiveTab Tab.inventory st
  | Tab.inventory => setActiveTab Tab.category st
  | Tab.category => setActiveTab Tab.media st
  | Tab.media => setActiveTab Tab.attributes st
  | Tab.variants => st
  | Tab.attributes => st
  end.

(** [onClick] of the "Previous: ..." button of the tab shown.  The
    first tab has none. *)
Definition previousOnClick (st : State) : State :=
  match activeTab st with
  | Tab.basic => st
  | Tab.pricing => setActiveTab Tab.basic st
  | Tab.inventory => setActiveTab Tab.pricing st
  | Tab.category => setActiveTab Tab.inventory st
  | Tab.media => setActiveTab Tab.category st
  | Tab.variants => setActiveTab Tab.media st
  | Tab.attributes => st
  end.

(** *** Validation schema ([productFormSchema]) *)

(** [z.number().min(0)]: a number, not [NaN], at least 0. *)
Definition numberMin0 (x : float) : bool := (0 <=? x)%float.

Definition nullable {A} (p : A → bool) (x : option A) : bool :=
  match x with Some x => p x | None => true end.

Inductive Field :=
| f_name | f_description | f_purchasePrice | f_sellingPrice | f_mrp | f_gst
| f_sku | f_barcode | f_weight | f_dimensions | f_inventoryQuantity
| f_status | f_categoryId | f_featuredImageUrl | f_images | f_tags.

Definition fieldValid (f : Field) (v : ProductFormValues) : bool :=
  match f with
  | f_name => bool_decide (1 ≤ length (name v))
  | f_purchasePrice => nullable numberMin0 (purchasePrice v)
  | f_sellingPrice => numberMin0 (sellingPrice v)
  | f_mrp => nullable numberMin0 (mrp v)
  | f_gst => nullable (λ x, numberMin0 x && (x <=? 100)%float) (gst v)
  | f_weight => nullable numberMin0 (weight v)
  | f_dimensions =>
      nullable (λ d, nullable numberMin0 (Dimensions.length d)
                     && nullable numberMin0 (Dimensions.width d)
                     && nullable numberMin0 (Dimensions.height d))
        (dimensions v)
  | f_inventoryQuantity => nullable numberMin0 (inventoryQuantity v)
  | f_categoryId => nullable (λ x, negb (PrimFloat.is_nan x)) (categoryId v)
  | f_description | f_sku | f_barcode | f_status
  | f_featuredImageUrl | f_images | f_tags => true
  end.

(** The fields each [TabsContent] renders: the field group of a step. *)
Definition fieldsOf (t : Tab.t) : list Field :=
  match t with
  | Tab.basic => [f_name; f_description; f_status]
  | Tab.pricing => [f_sellingPrice; f_mrp; f_purchasePrice; f_gst]
  | Tab.inventory => [f_inventoryQuantity; f_sku; f_barcode; f_weight; f_dimensions]
  | Tab.category => [f_categoryId; f_tags]
  | Tab.media => [f_featuredImageUrl; f_images]
  | Tab.variants | Tab.attributes => []
  end.

Definition groupValid (t : Tab.t) (v : ProductFormValues) : bool :=
  forallb (λ f, fieldValid f v) (fieldsOf t).

(** The form of a product being created ([product] undefined). *)
Definition defaultValues : ProductFormValues := {|
  name := js ""; description := Some (js "");
  purchasePrice := None; sellingPrice := 0%float; mrp := None; gst := None;
  sku := None; barcode := None; weight := None;
  dimensions := Some {| Dimensions.length := None; Dimensions.width := None;
                        Dimensions.height := None |};
  inventoryQuantity := Some 0%float; status := js "active";
  categoryId := None; featuredImageUrl := None; images := []; tags := []
|}.

Definition initial : State := {|
  activeTab := Tab.basic; values := defaultValues;
  selectedColors := []; selectedSizes := []; generatedVariants := [];
  customColor := js ""; customSize := js ""
|}.

(** Position of a tab in the strip. *)
Definition index (t : Tab.t) : option nat :=
  match t with
  | Tab.basic => Some 0 | Tab.pricing => Some 1 | Tab.inventory => Some 2
  | Tab.category => Some 3 | Tab.media => Some 4 | Tab.variants => Some 5
  | Tab.attributes => None
  end.

(** *** Submission *)

Record ProductData := {
  data : ProductFormValues;           (* [...values] *)
  hasVariants : bool;
  variants : option (list VariantRecord.t)   (* [None] is [undefined] *)
}.

Inductive Request :=
| POST_products (body : ProductData)
| PUT_product (productId : jsstring) (body : ProductData).

(** The object [onSubmit] builds. *)
Definition productData (values : ProductFormValues) (st : State) : ProductData :=
  {| data := values;
     hasVariants := bool_decide (0 < length (generatedVariants st));
     variants :=
       if bool_decide (0 < length (generatedVariants st))
       then Some (generatedVariants st) else None |}.

(** The request [onSubmit] sends: an update when editing, a creation
    otherwise. *)
Definition onSubmit (isEditing : bool) (productId : jsstring)
    (values : ProductFormValues) (st : State) : Request :=
  if isEditing then PUT_product productId (productData values st)
  else POST_products (productData values st).

End ProductForm.

(* ===================================================================== *)
(** ** Reference enumeration and sample runtime *)
(* ===================================================================== *)

(** The pairs of a colour and a size in colour-major, size-minor order:
    all sizes for the first colour, then all sizes for the second, and so
    on.  The generator is compared with this enumeration. *)
Fixpoint matrix (colors sizes : list jsstring) : list (jsstring * jsstring) :=
  match colors with
  | [] => []
  | color :: colors' => ((λ size, (color, size)) <$> sizes) ++ matrix colors' sizes
  end.

(** The record built for the pair [p] when it is reached at draw
    [from + k]. *)
Definition rowAt (randomId : nat → jsstring) (baseSku : jsstring) (basePrice : float)
    (from k : nat) (p : jsstring * jsstring) : VariantRecord.t :=
  ProductForm.newVariant (randomId (from + k)) p.1 p.2 baseSku basePrice.

(** [toUpperCase] restricted to what it does on ASCII letters; used to
    run the generator on examples. *)
Definition asciiToUpperCase (s : jsstring) : jsstring :=
  (λ c, if (97 <=? c)%N && (c <=? 122)%N then (c - 32)%N else c) <$> s.

(** A run of [Math.random] in which all identifiers differ. *)
Definition distinctIds (k : nat) : jsstring := js "v" ++ [N.of_nat (97 + k)].

(** A run of [Math.random] in which an identifier repeats. *)
Definition repeatedIds (k : nat) : jsstring := js "k3f9a2c".

(** A run of [Math.random] in which the third identifier drawn is the
    first one again and all others differ. *)
Definition collidingIds (k : nat) : jsstring :=
  if bool_decide (k = 2) then distinctIds 0 else distinctIds k.

(* ===================================================================== *)
(** ** Checkout wizard: the controls as rendered, and submission *)
(* ===================================================================== *)

Module CheckoutFlow.
Import Checkout.

(** [checkoutFormSchema] as a whole, which [form.handleSubmit] runs:
    [shippingAddressId] and [notes] are optional, the address and the
    payment method are checked. *)
Definition checkoutFormSchema (v : CheckoutFormValues) : bool :=
  shippingAddressSchema (shippingAddress v) && paymentMethodSchema (paymentMethod v).

(** Body of [POST /api/checkout]: [{...data, vendorId}]. *)
Record CheckoutRequest := { body : CheckoutFormValues; vendorId : Z }.

(** [form.handleSubmit(onSubmit)]: [onSubmit], and with it
    [checkout.mutate], runs only when the schema accepts the form. *)
Definition handleSubmit (vendor : Z) (st : State) : option CheckoutRequest :=
  if checkoutFormSchema (values st)
  then Some {| body := values st; vendorId := vendor |}
  else None.

(** The "Place Order" button, rendered on the review card. *)
Definition placeOrder (vendor : Z) (st : State) : option CheckoutRequest :=
  match step st with
  | review => handleSubmit vendor st
  | shipping | payment => None
  end.

(** The payment line of the review card. *)
Definition reviewPaymentLabel (v : CheckoutFormValues) : jsstring :=
  match paymentMethod v with
  | Some cod => js "Cash on Delivery"
  | Some paypal => js "PayPal"
  | Some stripe | None => js "Credit/Debit Card"
  end.

(** The text inputs of the shipping card. *)
Inductive AddressInput :=
| in_addressLine1 | in_addressLine2 | in_city | in_state | in_postalCode | in_country.

Definition setAddressField (f : AddressInput) (text : jsstring) (a : ShippingAddress)
  : ShippingAddress :=
  {| addressLine1 := if f is in_addressLine1 then text else addressLine1 a;
     addressLine2 := if f is in_addressLine2 then Some text else addressLine2 a;
     city := if f is in_city then text else city a;
     state := if f is in_state then text else state a;
     postalCode := if f is in_postalCode then text else postalCode a;
     country := if f is in_country then text else country a |}.

Definition setShippingAddress (a : ShippingAddress) (v : CheckoutFormValues)
  : CheckoutFormValues :=
  {| shippingAddressId := shippingAddressId v; shippingAddress := a;
     paymentMethod := paymentMethod v; notes := notes v |}.

Definition setPaymentMethod (p : option PaymentMethod) (v : CheckoutFormValues)
  : CheckoutFormValues :=
  {| shippingAddressId := shippingAddressId v; shippingAddress := shippingAddress v;
     paymentMethod := p; notes := notes v |}.

Definition setNotes (n : option jsstring) (v : CheckoutFormValues)
  : CheckoutFormValues :=
  {| shippingAddressId := shippingAddressId v; shippingAddress := shippingAddress v;
     paymentMethod := paymentMethod v; notes := n |}.

(** [disabled] of the [RadioGroupItem]s: only cash on delivery can be
    picked. *)
Definition radioDisabled (p : PaymentMethod) : bool :=
  match p with cod => false | paypal | stripe => true end.

(** A control of the shipping card. *)
Definition onShippingCard (change : State → State) (st : State) : State :=
  match step st with
  | shipping => change st
  | payment | review => st
  end.

(** A control of the payment card. *)
Definition onPaymentCard (change : State → State) (st : State) : State :=
  match step st with
  | payment => change st
  | shipping | review => st
  end.

(** What the user can do, control by control.  A control acts only
    while its card is rendered.  The address inputs and the saved
    address list are further restricted by the session and the address
    tab; that restriction is not modelled, so the actions below are a
    superset of the possible ones.  [AddressList] is a component of its
    own: it is taken to call [onAddressSelect] only while it is
    rendered. *)
Inductive Action :=
| TypeAddress (f : AddressInput) (text : jsstring)
| PickSavedAddress (sameObject : bool) (a : CustomerAddress)
| ShowAddressTab (t : AddressTab)
| PickPayment (p : PaymentMethod)
| TypeNotes (text : jsstring)
| Next
| Back
| ChangeAddress
| ChangePayment.

Definition act (st : State) (a : Action) : State :=
  match a with
  | TypeAddress f text =>
      onShippingCard
        (λ st, setValues
                 (setShippingAddress
                    (setAddressField f text (shippingAddress (values st)))
                    (values st)) st) st
  | PickSavedAddress sameObject a => onShippingCard (selectAddress sameObject a) st
  | ShowAddressTab t => onShippingCard (setAddressTab t) st
  | PickPayment p =>
      onPaymentCard
        (λ st, if radioDisabled p then st
               else setValues (setPaymentMethod (Some p) (values st)) st) st
  | TypeNotes text =>
      onPaymentCard (λ st, setValues (setNotes (Some text) (values st)) st) st
  | Next => handleNextStep st
  | Back => handlePreviousStep st
  | ChangeAddress => onReviewCard (setStep shipping) st
  | ChangePayment => onReviewCard (setStep payment) st
  end.

(** The state after a session: the actions in order, from the initial
    state. *)
Definition run (actions : list Action) : State := fold_left act actions initial.

End CheckoutFlow.

(* ===================================================================== *)
(** ** Product editor: tags, images and the price input *)
(* ===================================================================== *)

(** What the handlers read of a [File]. *)
Module File.
Record t := { name : jsstring; size : float; type : jsstring }.
End File.

Module JSArray.

(** [arr.filter((x, i) => keep(x, i))], with [i] counted from [from]. *)
Fixpoint filterIndexed {A} (keep : A → nat → bool) (from : nat) (arr : list A) : list A :=
  match arr with
  | [] => []
  | x :: arr' =>
      if keep x from then x :: filterIndexed keep (S from) arr'
      else filterIndexed keep (S from) arr'
  end.

(** [s.startsWith(prefix)] *)
Definition startsWith (prefix s : jsstring) : bool :=
  bool_decide (take (length prefix) s = prefix).

End JSArray.

(** The named helpers of the [ProductForm] component.  Each is a function
    of the part of the state it reads and writes: the form values, and
    for [addTag] the text of the tag input. *)
Module ProductFormHelpers.
Import ProductForm.

Definition setTags (l : list jsstring) (v : ProductFormValues) : ProductFormValues :=
  {| name := name v; description := description v;
     purchasePrice := purchasePrice v; sellingPrice := sellingPrice v;
     mrp := mrp v; gst := gst v; sku := sku v; barcode := barcode v;
     weight := weight v; dimensions := dimensions v;
     inventoryQuantity := inventoryQuantity v; status := status v;
     categoryId := categoryId v; featuredImageUrl := featuredImageUrl v;
     images := images v; tags := l |}.

Definition setImages (l : list jsstring) (v : ProductFormValues) : ProductFormValues :=
  {| name := name v; description := description v;
     purchasePrice := purchasePrice v; sellingPrice := sellingPrice v;
     mrp := mrp v; gst := gst v; sku := sku v; barcode := barcode v;
     weight := weight v; dimensions := dimensions v;
     inventoryQuantity := inventoryQuantity v; status := status v;
     categoryId := categoryId v; featuredImageUrl := featuredImageUrl v;
     images := l; tags := tags v |}.

Definition setFeaturedImageUrl (u : option jsstring) (v : ProductFormValues)
  : ProductFormValues :=
  {| name := name v; description := description v;
     purchasePrice := purchasePrice v; sellingPrice := sellingPrice v;
     mrp := mrp v; gst := gst v; sku := sku v; barcode := barcode v;
     weight := weight v; dimensions := dimensions v;
     inventoryQuantity := inventoryQuantity v; status := status v;
     categoryId := categoryId v; featuredImageUrl := u;
     images := images v; tags := tags v |}.

Definition setSellingPrice (p : float) (v : ProductFormValues) : ProductFormValues :=
  {| name := name v; description := description v;
     purchasePrice := purchasePrice v; sellingPrice := p;
     mrp := mrp v; gst := gst v; sku := sku v; barcode := barcode v;
     weight := weight v; dimensions := dimensions v;
     inventoryQuantity := inventoryQuantity v; status := status v;
     categoryId := categoryId v; featuredImageUrl := featuredImageUrl v;
     images := images v; tags := tags v |}.

(** *** Tags *)

(** [addTag]: the pair is the tag input and the form after the call. *)
Definition addTag (tag : jsstring) (v : ProductFormValues) : jsstring * ProductFormValues :=
  if negb (truthy tag) then (tag, v)
  else if includes tag (tags v) then (js "", v)
  else (js "", setTags (tags v ++ [tag]) v).

(** [onKeyDown] of the tag input. *)
Definition tagOnKeyDown (key tag : jsstring) (v : ProductFormValues)
  : jsstring * ProductFormValues :=
  if bool_decide (key = js "Enter") then addTag tag v else (tag, v).

(** [removeTag(index)] *)
Definition removeTag (index : nat) (v : ProductFormValues) : ProductFormValues :=
  setTags (JSArray.filterIndexed (λ _ i, negb (i =? index)) 0 (tags v)) v.

(** *** Images *)

(** [removeImage(url)] *)
Definition removeImage (url : jsstring) (v : ProductFormValues) : ProductFormValues :=
  setImages (filter (λ image, image ≠ url) (images v)) v.

(** [removeFeaturedImage] *)
Definition removeFeaturedImage (v : ProductFormValues) : ProductFormValues :=
  setFeaturedImageUrl None v.

(** How [fetch('/api/s3/upload/product-image', ...)] ends: the promise
    rejects, or a response arrives with its [ok] flag and its body, [None]
    when [response.json()] rejects and otherwise the [url] field of the
    parsed object. *)
Inductive FetchOutcome :=
| Rejected
| Response (ok : bool) (url : option jsstring).

Inductive UploadToast :=
| FeaturedImageUploaded     (* "Image uploaded", featured *)
| AdditionalImageUploaded   (* "Image uploaded", additional *)
| UploadFailed.             (* destructive, "Upload failed" *)

(** The url the [try] block obtains, [None] when it throws. *)
Definition uploadedUrl (outcome : FetchOutcome) : option jsstring :=
  match outcome with
  | Response true (Some url) => Some url
  | Response true None | Response false _ | Rejected => None
  end.

(** [uploadFeaturedImage]: [files] is [e.target.files], [fetch] answers
    the upload of the file it is given. *)
Definition uploadFeaturedImage (files : list File.t) (fetch : File.t → FetchOutcome)
    (v : ProductFormValues) : ProductFormValues * list UploadToast :=
  match files with
  | [] => (v, [])
  | file :: _ =>
      match uploadedUrl (fetch file) with
      | Some url => (setFeaturedImageUrl (Some url) v, [FeaturedImageUploaded])
      | None => (v, [UploadFailed])
      end
  end.

(** [uploadAdditionalImage] *)
Definition uploadAdditionalImage (files : list File.t) (fetch : File.t → FetchOutcome)
    (v : ProductFormValues) : ProductFormValues * list UploadToast :=
  match files with
  | [] => (v, [])
  | file :: _ =>
      match uploadedUrl (fetch file) with
      | Some url => (setImages (images v ++ [url]) v, [AdditionalImageUploaded])
      | None => (v, [UploadFailed])
      end
  end.

(** *** The selling price input *)

(** [onChange] of the selling price input; [parsed] is
    [parseFloat(e.target.value)]. *)
Definition sellingPriceOnChange (parsed : float) (v : ProductFormValues)
  : ProductFormValues :=
  setSellingPrice (if truthyNumber parsed then parsed else 0%float) v.

(** [ProductForm.State] with other form values. *)
Definition setValues (v : ProductFormValues) (st : State) : State :=
  {| activeTab := activeTab st; values := v;
     selectedColors := selectedColors st; selectedSizes := selectedSizes st;
     generatedVariants := generatedVariants st;
     customColor := customColor st; customSize := customSize st |}.

End ProductFormHelpers.

(* ===================================================================== *)
(** ** File upload widget ([S3FileUpload]) *)
(* ===================================================================== *)

Module S3FileUpload.

Inductive Endpoint := upload | upload_product_image | upload_multiple.

(** The props the handlers read.  ([maxFiles] is declared by the
    component and read nowhere; [accept] and [buttonText] only reach the
    markup; the [onSuccess] and [onError] callbacks belong to the
    caller.) *)
Record Props := {
  endpoint : Endpoint;
  multiple : bool;
  maxSizeMB : float;
  showPreview : bool
}.

Definition defaultProps : Props :=
  {| endpoint := upload; multiple := false; maxSizeMB := 5%float; showPreview := true |}.

Record State := {
  selectedFile : option File.t;
  selectedFiles : list File.t;
  previewUrl : option jsstring
}.

Definition initial : State :=
  {| selectedFile := None; selectedFiles := []; previewUrl := None |}.

Definition setSelectedFile (f : option File.t) (st : State) : State :=
  {| selectedFile := f; selectedFiles := selectedFiles st; previewUrl := previewUrl st |}.

Definition setSelectedFiles (l : list File.t) (st : State) : State :=
  {| selectedFile := selectedFile st; selectedFiles := l; previewUrl := previewUrl st |}.

Definition setPreviewUrl (u : option jsstring) (st : State) : State :=
  {| selectedFile := selectedFile st; selectedFiles := selectedFiles st; previewUrl := u |}.

Inductive Toast :=
| FileTooLarge                      (* destructive, "File too large" *)
| FilesTooLarge (n : nat)           (* destructive, "Files too large", n files *)
| FilesUploaded (n : nat).          (* "Upload successful", n files *)

Inductive Effect :=
| ShowToast (t : Toast)
| ReadAsDataURL (f : File.t)        (* [reader.readAsDataURL(f)] *)
| ResetFileInput.                   (* [fileInputRef.current.value = ''] *)

(** [file.size > maxSizeMB * 1024 * 1024] *)
Definition tooLarge (p : Props) (f : File.t) : bool :=
  (maxSizeMB p * 1024 * 1024 <? File.size f)%float.

(** [file.type.startsWith('image/')] *)
Definition isImage (f : File.t) : bool :=
  JSArray.startsWith (js "image/") (File.type f).

(** The tail of both branches of [handleFileChange]: start reading the
    preview of [candidate] when there is one and previews are shown, else
    drop the preview. *)
Definition preview (p : Props) (candidate : option File.t) (st : State)
  : State * list Effect :=
  match candidate with
  | Some f =>
      if showPreview p then (st, [ReadAsDataURL f])
      else (setPreviewUrl None st, [])
  | None => (setPreviewUrl None st, [])
  end.

(** [handleFileChange]: [files] is [event.target.files]. *)
Definition handleFileChange (p : Props) (files : list File.t) (st : State)
  : State * list Effect :=
  match files with
  | [] => (st, [])
  | file :: _ =>
      if multiple p then
        let oversizedFiles := List.filter (tooLarge p) files in
        if 0 <? length oversizedFiles then
          (st, [ShowToast (FilesTooLarge (length oversizedFiles))])
        else
          preview p (List.find isImage files) (setSelectedFiles files st)
      else
        if tooLarge p file then (st, [ShowToast FileTooLarge])
        else
          preview p (if isImage file then Some file else None)
            (setSelectedFile (Some file) st)
  end.

(** [reader.onloadend]: [result] is [reader.result]. *)
Definition readerOnLoadEnd (result : option jsstring) (st : State) : State :=
  setPreviewUrl result st.

(** [clearSelection] *)
Definition clearSelection (st : State) : State * list Effect :=
  (setPreviewUrl None (setSelectedFiles [] (setSelectedFile None st)), [ResetFileInput]).

(** A multipart request: the path under [/api/s3/] and the parts in the
    order they are appended, each with its field name. *)
Record Request := { path : Endpoint; parts : list (jsstring * File.t) }.

(** [uploadMutation.mutationFn] *)
Definition uploadRequest (p : Props) (file : File.t) : Request :=
  {| path := endpoint p;
     parts := [(if endpoint p is upload_product_image then js "image" else js "file",
                file)] |}.

(** [multipleUploadMutation.mutationFn] *)
Definition multipleUploadRequest (p : Props) (files : list File.t) : Request :=
  {| path := endpoint p; parts := (λ file, (js "files", file)) <$> files |}.

(** [handleUpload]: the request sent, if any. *)
Definition handleUpload (p : Props) (st : State) : option Request :=
  if multiple p && (0 <? length (selectedFiles st)) then
    Some (multipleUploadRequest p (selectedFiles st))
  else
    match selectedFile st with
    | Some file => Some (uploadRequest p file)
    | None => None
    end.

(** [multipleUploadMutation]'s [onSuccess], after the caller's callback. *)
Definition multipleOnSuccess (st : State) : State * list Effect :=
  (setPreviewUrl None (setSelectedFile None (setSelectedFiles [] st)),
   [ShowToast (FilesUploaded (length (selectedFiles st))); ResetFileInput]).

Inductive Icon := ImageIcon | FileTextIcon.

(** [getFileIcon] *)
Definition getFileIcon (st : State) : option Icon :=
  match selectedFile st with
  | None => None
  | Some f => Some (if isImage f then ImageIcon else FileTextIcon)
  end.

(** What happens to the widget: the user chooses files or clears the
    selection, a preview finishes loading, a multiple upload succeeds. *)
Inductive Event :=
| FilesChosen (files : list File.t)
| PreviewLoaded (result : option jsstring)
| SelectionCleared
| MultipleUploadSucceeded.

Definition handle (p : Props) (st : State) (e : Event) : State :=
  match e with
  | FilesChosen files => (handleFileChange p files st).1
  | PreviewLoaded result => readerOnLoadEnd result st
  | SelectionCleared => (clearSelection st).1
  | MultipleUploadSucceeded => (multipleOnSuccess st).1
  end.

Definition run (p : Props) (events : list Event) : State :=
  fold_left (handle p) events initial.

End S3FileUpload.

(* ===================================================================== *)
(** ** Properties of the checkout wizard *)
(* ===================================================================== *)

Section CheckoutWizard.
Import Checkout.

Lemma min1_false (s : jsstring) : s = [] → min1 s = false.
Proof. by intros ->. Qed.

Lemma setStep_same (st : State) : setStep (step st) st = st.
Proof. by destruct st. Qed.

Lemma step_selectAddress (sameObject : bool) (a : CustomerAddress) (st : State) :
  step (selectAddress sameObject a st) = step st.
Proof. unfold selectAddress. by destruct (_ && _). Qed.

Lemma handle_not_next_backward (e : Event) (st : State) :
  e ≠ ClickNext → index (step (handle e st)) ≤ index (step st).
Proof.
  destruct e; simpl; try done; intros _;
    rewrite ?step_selectAddress;
    unfold handlePreviousStep, onReviewCard;
    destruct (step st) eqn:Hs; simpl; rewrite ?Hs; simpl; lia.
Qed.

Lemma handleNextStep_forward (st : State) :
  index (step st) < index (step (handleNextStep st)) →
  ∃ f, groupOf (step st) = Some f ∧ trigger f (values st) = true
       ∧ index (step (handleNextStep st)) = S (index (step st)).
Proof.
  unfold handleNextStep.
  destruct (step st) eqn:Hs; simpl.
  - destruct (shippingAddressSchema _) eqn:Hv; simpl; rewrite ?Hs; simpl;
      [ exists f_shippingAddress; simpl; by rewrite Hv | lia ].
  - destruct (paymentMethodSchema _) eqn:Hv; simpl; rewrite ?Hs; simpl;
      [ exists f_paymentMethod; simpl; by rewrite Hv | lia ].
  - rewrite Hs. simpl. lia.
Qed.

End CheckoutWizard.

(** C5.  In the checkout wizard, whenever one of the required
    shipping-address fields (addressLine1, city, state, postalCode,
    country) is the empty string, "Next" on the shipping step leaves the
    wizard where it is: the step is still [shipping], never [payment],
    and nothing else has changed either. *)
Theorem C5_shipping_with_empty_required_field_stays (st : Checkout.State) :
  Checkout.step st = Checkout.shipping →
  Checkout.addressLine1 (Checkout.shippingAddress (Checkout.values st)) = js ""
  ∨ Checkout.city (Checkout.shippingAddress (Checkout.values st)) = js ""
  ∨ Checkout.state (Checkout.shippingAddress (Checkout.values st)) = js ""
  ∨ Checkout.postalCode (Checkout.shippingAddress (Checkout.values st)) = js ""
  ∨ Checkout.country (Checkout.shippingAddress (Checkout.values st)) = js "" →
  Checkout.handleNextStep st = st
  ∧ Checkout.step (Checkout.handleNextStep st) = Checkout.shipping
  ∧ Checkout.step (Checkout.handleNextStep st) ≠ Checkout.payment.
Proof.
  intros Hstep Hempty.
  assert (Hinvalid : Checkout.trigger Checkout.f_shippingAddress (Checkout.values st) = false).
  { simpl. unfold Checkout.shippingAddressSchema.
    destruct Hempty as [H|[H|[H|[H|H]]]]; rewrite (min1_false _ H);
      rewrite ?andb_false_r; reflexivity. }
  assert (Hsame : Checkout.handleNextStep st = st).
  { unfold Checkout.handleNextStep. rewrite Hstep. simpl in *. by rewrite Hinvalid. }
  rewrite Hsame, Hstep. done.
Qed.

Lemma C5_witness :
  Checkout.handleNextStep Checkout.initial = Checkout.initial
  ∧ Checkout.step (Checkout.handleNextStep Checkout.initial) = Checkout.shipping
  ∧ Checkout.step (Checkout.handleNextStep Checkout.initial) ≠ Checkout.payment.
Proof.
  apply (C5_shipping_with_empty_required_field_stays Checkout.initial).
  - reflexivity.
  - left. reflexivity.
Defined.

(** C9.  "Back" moves the checkout wizard to the step just before the
    current one whatever the form holds (nothing is validated), does
    nothing on the first step, and changes no field: going back from
    review to payment keeps the payment method, the address, the notes
    and the selected saved address.  The "Previous" buttons of the
    product editor behave the same way on its tabs. *)
Theorem C9_retreat_is_unconditional_and_keeps_fields :
  (∀ st : Checkout.State,
      Checkout.values (Checkout.handlePreviousStep st) = Checkout.values st
      ∧ Checkout.selectedAddress (Checkout.handlePreviousStep st) = Checkout.selectedAddress st
      ∧ Checkout.addressTab (Checkout.handlePreviousStep st) = Checkout.addressTab st
      ∧ Checkout.index (Checkout.step (Checkout.handlePreviousStep st))
        = pred (Checkout.index (Checkout.step st)))
  ∧ (∀ st : Checkout.State,
      Checkout.handlePreviousStep (Checkout.setStep Checkout.shipping st)
      = Checkout.setStep Checkout.shipping st)
  ∧ (∀ st : Checkout.State,
      Checkout.handlePreviousStep (Checkout.setStep Checkout.payment st)
      = Checkout.setStep Checkout.shipping st)
  ∧ (∀ st : Checkout.State,
      Checkout.handlePreviousStep (Checkout.setStep Checkout.review st)
      = Checkout.setStep Checkout.payment st
      ∧ Checkout.paymentMethod
          (Checkout.values (Checkout.handlePreviousStep (Checkout.setStep Checkout.review st)))
        = Checkout.paymentMethod (Checkout.values st))
  ∧ (∀ st : ProductForm.State,
      ProductForm.previousOnClick st
      = ProductForm.setActiveTab (ProductForm.activeTab (ProductForm.previousOnClick st)) st
      ∧ ProductForm.index (ProductForm.activeTab (ProductForm.previousOnClick st))
        = pred <$> ProductForm.index (ProductForm.activeTab st)).
Proof.
  repeat split; try reflexivity.
  - unfold Checkout.handlePreviousStep. by destruct (Checkout.step st).
  - unfold Checkout.handlePreviousStep. by destruct (Checkout.step st).
  - unfold Checkout.handlePreviousStep. by destruct (Checkout.step st).
  - unfold Checkout.handlePreviousStep.
    destruct (Checkout.step st) eqn:Hs; simpl; by rewrite ?Hs.
  - unfold ProductForm.previousOnClick.
    destruct st as [tab ? ? ? ? ? ?]; by destruct tab.
  - unfold ProductForm.previousOnClick.
    destruct (ProductForm.activeTab st) eqn:Ht; simpl; by rewrite ?Ht.
Qed.

(** C4, as the claim states it, fails on the product editor: with the
    product name empty the field group of the first tab is invalid, yet
    "Next: Pricing" shows the pricing tab. *)
Lemma C4_product_form_advances_without_validation :
  ProductForm.activeTab ProductForm.initial = ProductForm.Tab.basic
  ∧ ProductForm.groupValid ProductForm.Tab.basic
      (ProductForm.values ProductForm.initial) = false
  ∧ ProductForm.activeTab (ProductForm.nextOnClick ProductForm.initial)
    = ProductForm.Tab.pricing.
Proof. repeat split. Qed.

(** C4, amended.  In the checkout wizard "Next" validates the field
    group of the current step (the shipping address on [shipping], the
    payment method on [payment]): when the group is valid the wizard
    moves to the next step and the form is untouched, when it is invalid
    the state does not change; and no event of the checkout wizard moves
    it forward except a "Next" whose validation succeeded.  In the
    product editor the "Next" buttons of the basic, pricing, inventory
    and categorization tabs show the following tab without validating
    anything. *)
Theorem C4_advance_validates_in_checkout_only :
  (∀ (st : Checkout.State) (f : Checkout.FieldName),
      Checkout.groupOf (Checkout.step st) = Some f →
      Checkout.trigger f (Checkout.values st) = true →
      Checkout.handleNextStep st
      = Checkout.setStep (Checkout.step (Checkout.handleNextStep st)) st
      ∧ Checkout.index (Checkout.step (Checkout.handleNextStep st))
        = S (Checkout.index (Checkout.step st)))
  ∧ (∀ (st : Checkout.State) (f : Checkout.FieldName),
      Checkout.groupOf (Checkout.step st) = Some f →
      Checkout.trigger f (Checkout.values st) = false →
      Checkout.handleNextStep st = st)
  ∧ (∀ (e : Checkout.Event) (st : Checkout.State),
      Checkout.index (Checkout.step st)
      < Checkout.index (Checkout.step (Checkout.handle e st)) →
      e = Checkout.ClickNext
      ∧ ∃ f, Checkout.groupOf (Checkout.step st) = Some f
             ∧ Checkout.trigger f (Checkout.values st) = true
             ∧ Checkout.index (Checkout.step (Checkout.handle e st))
               = S (Checkout.index (Checkout.step st)))
  ∧ (∀ (st : ProductForm.State) (i : nat),
      ProductForm.index (ProductForm.activeTab st) = Some i → i < 4 →
      ProductForm.nextOnClick st
      = ProductForm.setActiveTab (ProductForm.activeTab (ProductForm.nextOnClick st)) st
      ∧ ProductForm.index (ProductForm.activeTab (ProductForm.nextOnClick st))
        = Some (S i)).
Proof.
  split; [|split; [|split]].
  - intros st f Hg Hv. unfold Checkout.handleNextStep.
    destruct (Checkout.step st) eqn:Hs; simpl in Hg; simplify_eq;
      simpl in Hv; simpl; rewrite Hv; simpl; done.
  - intros st f Hg Hv. unfold Checkout.handleNextStep.
    destruct (Checkout.step st) eqn:Hs; simpl in Hg; simplify_eq;
      simpl in Hv; simpl; by rewrite Hv.
  - intros e st Hlt.
    assert (e = Checkout.ClickNext ∨ e ≠ Checkout.ClickNext) as [->|Hne]
      by (destruct e; (by left) || (by right)).
    + split; [done|]. by apply handleNextStep_forward.
    + pose proof (handle_not_next_backward e st Hne). lia.
  - intros st i Hi Hlt. unfold ProductForm.nextOnClick.
    destruct st as [tab ? ? ? ? ? ?]; simpl in *.
    destruct tab; simpl in *; simplify_eq; try done; lia.
Qed.

Lemma C4_witness :
  let st := Checkout.selectAddress false
              {| Checkout.ca_id := 7; Checkout.ca_customerId := 1;
                 Checkout.ca_addressLine1 := js "12 MG Road";
                 Checkout.ca_addressLine2 := None;
                 Checkout.ca_city := js "Pune"; Checkout.ca_state := js "MH";
                 Checkout.ca_postalCode := js "411001";
                 Checkout.ca_country := js "India";
                 Checkout.ca_isDefault := Some true;
                 Checkout.ca_createdAt := js "2025-01-01" |}
              Checkout.initial in
  Checkout.handleNextStep st
  = Checkout.setStep (Checkout.step (Checkout.handleNextStep st)) st
  ∧ Checkout.index (Checkout.step (Checkout.handleNextStep st)) = 1.
Proof.
  intros st.
  apply (proj1 C4_advance_validates_in_checkout_only st Checkout.f_shippingAddress);
    reflexivity.
Defined.


(* ===================================================================== *)
(** ** Properties of the attribute sets *)
(* ===================================================================== *)

Section AttributeSets.
Import ProductForm.

Lemma includes_true (x : jsstring) (l : list jsstring) :
  includes x l = true ↔ x ∈ l.
Proof. unfold includes. apply bool_decide_eq_true. Qed.

Lemma includes_false (x : jsstring) (l : list jsstring) :
  includes x l = false ↔ x ∉ l.
Proof. unfold includes. apply bool_decide_eq_false. Qed.

Lemma truthy_false (s : jsstring) : truthy s = false ↔ s = [].
Proof. by destruct s. Qed.

Lemma truthy_true (s : jsstring) : truthy s = true ↔ s ≠ [].
Proof. by destruct s. Qed.

(** Filtering out a label that is not there changes nothing. *)
Lemma filter_absent (label : jsstring) (l : list jsstring) :
  label ∉ l → filter (λ c, c ≠ label) l = l.
Proof.
  induction l as [|c l IH]; [done|].
  intros [Hc Hl]%not_elem_of_cons.
  rewrite filter_cons_True by congruence. by rewrite IH.
Qed.

Lemma filter_removes (label : jsstring) (l : list jsstring) :
  label ∉ filter (λ c, c ≠ label) l.
Proof. rewrite list_elem_of_filter. tauto. Qed.

Lemma toggle_present (set : list jsstring) (label : jsstring) :
  label ∈ set → toggleAttribute set label = filter (λ c, c ≠ label) set.
Proof. intros H%includes_true. unfold toggleAttribute. by rewrite H. Qed.

Lemma toggle_absent (set : list jsstring) (label : jsstring) :
  label ∉ set → toggleAttribute set label = set ++ [label].
Proof. intros H%includes_false. unfold toggleAttribute. by rewrite H. Qed.

Lemma selected_setSelected (a : Attribute) (l : list jsstring) (st : State) :
  selected a (setSelected a l st) = l.
Proof. by destruct a. Qed.

Lemma selected_setCustom (a b : Attribute) (s : jsstring) (st : State) :
  selected a (setCustom b s st) = selected a st.
Proof. by destruct a, b. Qed.

Lemma custom_setCustom (a : Attribute) (s : jsstring) (st : State) :
  custom a (setCustom a s st) = s.
Proof. by destruct a. Qed.

Lemma setSelected_same (a : Attribute) (st : State) :
  setSelected a (selected a st) st = st.
Proof. by destruct a, st. Qed.

End AttributeSets.

(** C6.  Toggling a label twice gives a set with the members of the
    original, and with every other element in its original relative
    order; one toggle removes the label when it is present and appends
    it when it is absent.  The badges of the colour set and of the size
    set apply this to their own set and leave the other alone. *)
Theorem C6_toggleAttribute_twice (set : list jsstring) (label : jsstring) :
  (∀ x, x ∈ ProductForm.toggleAttribute (ProductForm.toggleAttribute set label) label
        ↔ x ∈ set)
  ∧ filter (λ c, c ≠ label)
      (ProductForm.toggleAttribute (ProductForm.toggleAttribute set label) label)
    = filter (λ c, c ≠ label) set
  ∧ (label ∈ set →
       ProductForm.toggleAttribute set label = filter (λ c, c ≠ label) set
       ∧ label ∉ ProductForm.toggleAttribute set label)
  ∧ (label ∉ set → ProductForm.toggleAttribute set label = set ++ [label])
  ∧ (∀ (a b : ProductForm.Attribute) (st : ProductForm.State),
       ProductForm.selected b (ProductForm.badgeOnClick a label st).1
       = if decide (a = b)
         then ProductForm.toggleAttribute (ProductForm.selected a st) label
         else ProductForm.selected b st).
Proof.
  assert (Htwice : ∀ l : list jsstring,
    (label ∈ l → ProductForm.toggleAttribute (ProductForm.toggleAttribute l label) label
                 = filter (λ c, c ≠ label) l ++ [label])
    ∧ (label ∉ l → ProductForm.toggleAttribute (ProductForm.toggleAttribute l label) label = l)).
  { intros l. split; intros Hl.
    - rewrite (toggle_present l) by done.
      rewrite toggle_absent; [done | apply filter_removes].
    - rewrite (toggle_absent l) by done.
      rewrite toggle_present by (apply elem_of_app; right; apply list_elem_of_singleton; done).
      rewrite filter_app, filter_absent by done.
      rewrite (filter_singleton_False (λ c, c ≠ label) label [])
        by (intros H; by apply H).
      by rewrite app_nil_r. }
  destruct (Htwice set) as [Hin Hout].
  destruct (decide (label ∈ set)) as [Hl|Hl].
  - rewrite (Hin Hl). repeat split.
    + intros [[_ ?]%list_elem_of_filter | ->%list_elem_of_singleton]%elem_of_app; done.
    + intros Hx. apply elem_of_app. destruct (decide (x = label)) as [->|Hne].
      * right. by apply list_elem_of_singleton.
      * left. by apply list_elem_of_filter.
    + rewrite filter_app.
      rewrite (filter_singleton_False (λ c, c ≠ label) label [])
        by (intros H; by apply H).
      rewrite app_nil_r. apply filter_absent, filter_removes.
    + by apply toggle_present.
    + rewrite toggle_present by done. apply filter_removes.
    + done.
    + intros a b st. destruct a, b; by case_decide.
  - rewrite (Hout Hl). repeat split; try done.
    + by apply toggle_absent.
    + intros a b st. destruct a, b; by case_decide.
Qed.

(** C7.  Adding a custom label, by Enter in the input or by the "Add"
    button, works on the trimmed text of the input.  An empty trimmed
    text does nothing.  A trimmed text that is already in the set,
    compared code unit by code unit, raises the "already added" toast and
    changes nothing.  Any other trimmed text is appended at the end of
    the set (and the input is emptied); typing the same label again,
    with whatever surrounding blanks, and adding it a second time raises
    "already added" and leaves the set, and so its size, as it was. *)
Theorem C7_addCustomAttribute (a : ProductForm.Attribute) (st : ProductForm.State) :
  (trim (ProductForm.custom a st) = js "" →
     ProductForm.inputOnKeyDown a (js "Enter") st = (st, [])
     ∧ ProductForm.addButton a st = (st, [])
     ∧ (ProductForm.addOnClick a st).1 = st)
  ∧ (trim (ProductForm.custom a st) ≠ js "" →
     trim (ProductForm.custom a st) ∈ ProductForm.selected a st →
     ProductForm.inputOnKeyDown a (js "Enter") st = (st, [ProductForm.AlreadyAdded a])
     ∧ ProductForm.addButton a st = (st, [ProductForm.AlreadyAdded a])
     ∧ ProductForm.addOnClick a st = (st, [ProductForm.AlreadyAdded a]))
  ∧ (trim (ProductForm.custom a st) ≠ js "" →
     trim (ProductForm.custom a st) ∉ ProductForm.selected a st →
     let added :=
       ProductForm.setCustom a (js "")
         (ProductForm.setSelected a
            (ProductForm.selected a st ++ [trim (ProductForm.custom a st)]) st) in
     ProductForm.inputOnKeyDown a (js "Enter") st = (added, [])
     ∧ ProductForm.addButton a st = (added, [])
     ∧ ProductForm.selected a added
       = ProductForm.selected a st ++ [trim (ProductForm.custom a st)]
     ∧ ∀ raw : jsstring,
         trim raw = trim (ProductForm.custom a st) →
         let again := (ProductForm.inputOnChange a raw added).1 in
         ProductForm.inputOnKeyDown a (js "Enter") again
         = (again, [ProductForm.AlreadyAdded a])
         ∧ ProductForm.addButton a again = (again, [ProductForm.AlreadyAdded a])
         ∧ ProductForm.selected a again = ProductForm.selected a added
         ∧ length (ProductForm.selected a again)
           = length (ProductForm.selected a added)).
Proof.
  assert (Hpresent : ∀ s : ProductForm.State,
    trim (ProductForm.custom a s) ≠ [] →
    trim (ProductForm.custom a s) ∈ ProductForm.selected a s →
    ProductForm.inputOnKeyDown a (js "Enter") s = (s, [ProductForm.AlreadyAdded a])
    ∧ ProductForm.addButton a s = (s, [ProductForm.AlreadyAdded a])
    ∧ ProductForm.addOnClick a s = (s, [ProductForm.AlreadyAdded a])).
  { intros s Hne%truthy_true Hin%includes_true.
    unfold ProductForm.addButton, ProductForm.button, ProductForm.addDisabled,
      ProductForm.inputOnKeyDown, ProductForm.addOnClick.
    rewrite Hne, Hin. simpl. done. }
  split; [|split].
  - intros Hempty.
    unfold ProductForm.addButton, ProductForm.button, ProductForm.addDisabled,
      ProductForm.inputOnKeyDown, ProductForm.addOnClick.
    rewrite Hempty. simpl. repeat split.
    by destruct (includes _ _).
  - apply Hpresent.
  - intros Hne Hnotin added.
    assert (Hsel : ProductForm.selected a added
                   = ProductForm.selected a st ++ [trim (ProductForm.custom a st)]).
    { unfold added. by rewrite selected_setCustom, selected_setSelected. }
    pose proof Hne as Ht%truthy_true. pose proof Hnotin as Hi%includes_false.
    split; [|split; [|split]].
    + unfold ProductForm.inputOnKeyDown. rewrite Ht, Hi. done.
    + unfold ProductForm.addButton, ProductForm.button, ProductForm.addDisabled,
        ProductForm.addOnClick. rewrite Ht, Hi. done.
    + exact Hsel.
    + intros raw Hraw again.
      assert (Hc : ProductForm.custom a again = raw)
        by apply custom_setCustom.
      assert (Hs : ProductForm.selected a again = ProductForm.selected a added)
        by apply selected_setCustom.
      destruct (Hpresent again) as (Hk & Hb & _).
      * by rewrite Hc, Hraw.
      * rewrite Hc, Hraw, Hs, Hsel. apply elem_of_app. right.
        by apply list_elem_of_singleton.
      * by rewrite Hk, Hb, Hs.
Qed.

Lemma C7_witness :
  let st := ProductForm.setCustomColor (js "  Navy ")
              (ProductForm.setSelectedColors [js "Red"] ProductForm.initial) in
  ProductForm.inputOnKeyDown ProductForm.Color (js "Enter") st
  = (ProductForm.setCustomColor (js "")
       (ProductForm.setSelectedColors [js "Red"; js "Navy"] ProductForm.initial), [])
  ∧ ProductForm.addButton ProductForm.Color st
    = (ProductForm.setCustomColor (js "")
         (ProductForm.setSelectedColors [js "Red"; js "Navy"] ProductForm.initial), []).
Proof.
  intros st.
  destruct (proj2 (proj2 (C7_addCustomAttribute ProductForm.Color st)))
    as (Hkey & Hbutton & _).
  - vm_compute. discriminate.
  - apply (proj1 (bool_decide_eq_false _)). vm_compute. reflexivity.
  - split; [exact Hkey | exact Hbutton].
Defined.


(* ===================================================================== *)
(** ** Properties of the variant matrix *)
(* ===================================================================== *)

Section GeneratorFacts.
Import ProductForm.
Variable toUpperCase : jsstring → jsstring.
Variable randomId : nat → jsstring.
Variables (baseSku : jsstring) (basePrice : float).

Lemma forSizes_unfold (color : jsstring) (sizes : list jsstring) (acc : Loop) :
  forSizes randomId baseSku basePrice sizes acc color
  = {| pushed := pushed acc
         ++ imap (rowAt randomId baseSku basePrice (drawn acc)) ((λ size, (color, size)) <$> sizes);
       drawn := drawn acc + length sizes |}.
Proof.
  unfold forSizes. revert acc.
  induction sizes as [|size sizes IH]; intros acc; simpl.
  - rewrite app_nil_r, Nat.add_0_r. by destruct acc.
  - rewrite IH. simpl. f_equal; [|lia].
    rewrite <- app_assoc. simpl. f_equal. unfold rowAt at 2. simpl.
    rewrite Nat.add_0_r. f_equal.
    apply imap_ext. intros k p _. unfold rowAt. simpl.
    by rewrite Nat.add_succ_r.
Qed.

Lemma forColors_unfold (colors sizes : list jsstring) (acc : Loop) :
  forColors randomId baseSku basePrice colors sizes acc
  = {| pushed := pushed acc ++ imap (rowAt randomId baseSku basePrice (drawn acc)) (matrix colors sizes);
       drawn := drawn acc + length (matrix colors sizes) |}.
Proof.
  unfold forColors. revert acc.
  induction colors as [|color colors IH]; intros acc; simpl.
  - rewrite app_nil_r, Nat.add_0_r. by destruct acc.
  - rewrite IH, forSizes_unfold. simpl.
    rewrite length_app, length_fmap, imap_app, length_fmap.
    f_equal; [|lia].
    rewrite <- app_assoc. do 2 f_equal.
    apply imap_ext. intros k p _. unfold rowAt. by rewrite Nat.add_assoc.
Qed.

End GeneratorFacts.

Lemma length_matrix (colors sizes : list jsstring) :
  length (matrix colors sizes) = length colors * length sizes.
Proof.
  induction colors as [|c colors IH]; simpl; [done|].
  by rewrite length_app, length_fmap, IH.
Qed.

(** Colour [i] and size [j] sit at position [i * |sizes| + j]. *)
Lemma lookup_matrix (colors sizes : list jsstring) (i j : nat) (c s : jsstring) :
  colors !! i = Some c → sizes !! j = Some s →
  matrix colors sizes !! (i * length sizes + j) = Some (c, s).
Proof.
  revert i. induction colors as [|c0 colors IH]; intros i Hc Hs; [done|].
  pose proof (lookup_lt_Some _ _ _ Hs) as Hj.
  destruct i as [|i]; simpl in *.
  - simplify_eq. rewrite lookup_app_l by (by rewrite length_fmap).
    by rewrite list_lookup_fmap, Hs.
  - rewrite lookup_app_r by (rewrite length_fmap; lia).
    rewrite length_fmap.
    replace (length sizes + i * length sizes + j - length sizes)
      with (i * length sizes + j) by lia.
    by apply IH.
Qed.

Lemma generateOnClick_nonempty
    (toUpperCase : jsstring → jsstring) (randomId : nat → jsstring)
    (st : ProductForm.State) :
  ProductForm.selectedColors st ≠ [] → ProductForm.selectedSizes st ≠ [] →
  let rows :=
    imap (rowAt randomId (ProductForm.baseSkuOf toUpperCase (ProductForm.values st))
            (ProductForm.basePriceOf (ProductForm.values st)) 0)
         (matrix (ProductForm.selectedColors st) (ProductForm.selectedSizes st)) in
  ProductForm.generateOnClick toUpperCase randomId st
  = (ProductForm.setGeneratedVariants rows st,
     [ProductForm.VariantsGenerated (length rows)]).
Proof.
  intros Hc Hs rows. unfold ProductForm.generateOnClick.
  rewrite (bool_decide_eq_false_2 (length (ProductForm.selectedColors st) = 0))
    by (by destruct (ProductForm.selectedColors st)).
  rewrite (bool_decide_eq_false_2 (length (ProductForm.selectedSizes st) = 0))
    by (by destruct (ProductForm.selectedSizes st)).
  simpl. by rewrite forColors_unfold.
Qed.

(** C1.  With at least one colour and one size selected, "Generate
    Variant Matrix" stores exactly |colours| x |sizes| records, colours
    in the outer loop and sizes in the inner one: the record for colour
    [i] and size [j] is at position [i * |sizes| + j].  What is stored
    does not depend on the collection generated before, which is
    replaced as a whole. *)
Theorem C1_generate_color_major_full_replace
    (toUpperCase : jsstring → jsstring) (randomId : nat → jsstring)
    (st : ProductForm.State) :
  ProductForm.selectedColors st ≠ [] → ProductForm.selectedSizes st ≠ [] →
  let colors := ProductForm.selectedColors st in
  let sizes := ProductForm.selectedSizes st in
  let after := (ProductForm.generateOnClick toUpperCase randomId st).1 in
  length (ProductForm.generatedVariants after) = length colors * length sizes
  ∧ (λ v, (VariantRecord.color v, VariantRecord.size v))
      <$> ProductForm.generatedVariants after
    = matrix colors sizes
  ∧ (∀ i j c s, colors !! i = Some c → sizes !! j = Some s →
       ProductForm.generatedVariants after !! (i * length sizes + j)
       = Some (ProductForm.newVariant (randomId (i * length sizes + j)) c s
                 (ProductForm.baseSkuOf toUpperCase (ProductForm.values st))
                 (ProductForm.basePriceOf (ProductForm.values st))))
  ∧ (∀ previous : list VariantRecord.t,
       ProductForm.generatedVariants
         (ProductForm.generateOnClick toUpperCase randomId
            (ProductForm.setGeneratedVariants previous st)).1
       = ProductForm.generatedVariants after)
  ∧ after = ProductForm.setGeneratedVariants (ProductForm.generatedVariants after) st
  ∧ (ProductForm.generateOnClick toUpperCase randomId st).2
    = [ProductForm.VariantsGenerated (length colors * length sizes)].
Proof.
  intros Hc Hs colors sizes after.
  pose proof (generateOnClick_nonempty toUpperCase randomId st Hc Hs) as Hgen.
  simpl in Hgen. subst colors sizes after. rewrite Hgen. simpl.
  rewrite length_imap, length_matrix.
  split; [done|]. split; [|split; [|split]].
  - rewrite fmap_imap. apply list_eq. intros k.
    rewrite list_lookup_imap.
    by destruct (matrix _ _ !! k) as [[c s]|].
  - intros i j c s Hi Hj.
    rewrite list_lookup_imap, (lookup_matrix _ _ _ _ _ _ Hi Hj). done.
  - intros previous.
    pose proof (generateOnClick_nonempty toUpperCase randomId
                  (ProductForm.setGeneratedVariants previous st) Hc Hs) as Hp.
    simpl in Hp. by rewrite Hp.
  - done.
Qed.

Lemma C1_witness :
  let st := ProductForm.setSelectedSizes [js "S"; js "M"; js "L"]
              (ProductForm.setSelectedColors [js "Red"; js "Blue"] ProductForm.initial) in
  let after := (ProductForm.generateOnClick asciiToUpperCase distinctIds st).1 in
  length (ProductForm.generatedVariants after) = 2 * 3
  ∧ (λ v, (VariantRecord.color v, VariantRecord.size v))
      <$> ProductForm.generatedVariants after
    = [(js "Red", js "S"); (js "Red", js "M"); (js "Red", js "L");
       (js "Blue", js "S"); (js "Blue", js "M"); (js "Blue", js "L")].
Proof.
  intros st after.
  destruct (C1_generate_color_major_full_replace asciiToUpperCase distinctIds st)
    as (Hlen & Hpairs & _); [done | done |].
  split; [exact Hlen | exact Hpairs].
Defined.

(** C2.  With no colour or no size selected, the generate handler only
    raises the "Cannot generate variants" toast: the state, and with it
    the collection generated before, is exactly what it was.  (The
    button that carries the handler is disabled in that case; clicking it
    leaves the state as it was, too.) *)
Theorem C2_generate_insufficient_selection
    (toUpperCase : jsstring → jsstring) (randomId : nat → jsstring)
    (st : ProductForm.State) :
  ProductForm.selectedColors st = [] ∨ ProductForm.selectedSizes st = [] →
  ProductForm.generateOnClick toUpperCase randomId st
  = (st, [ProductForm.CannotGenerateVariants])
  ∧ ProductForm.generatedVariants
      (ProductForm.generateOnClick toUpperCase randomId st).1
    = ProductForm.generatedVariants st
  ∧ (ProductForm.generateButton toUpperCase randomId st).1 = st.
Proof.
  intros Hempty.
  assert (Hguard : bool_decide (length (ProductForm.selectedColors st) = 0)
                   || bool_decide (length (ProductForm.selectedSizes st) = 0) = true).
  { destruct Hempty as [-> | ->]; simpl; [done | by rewrite orb_true_r]. }
  unfold ProductForm.generateButton, ProductForm.button,
    ProductForm.generateDisabled, ProductForm.generateOnClick.
  by rewrite Hguard.
Qed.

Lemma C2_witness :
  ProductForm.generateOnClick asciiToUpperCase distinctIds
    (ProductForm.setSelectedColors [js "Red"] ProductForm.initial)
  = (ProductForm.setSelectedColors [js "Red"] ProductForm.initial,
     [ProductForm.CannotGenerateVariants])
  ∧ ProductForm.generatedVariants
      (ProductForm.generateOnClick asciiToUpperCase distinctIds
         (ProductForm.setSelectedColors [js "Red"] ProductForm.initial)).1
    = [].
Proof.
  destruct (C2_generate_insufficient_selection asciiToUpperCase distinctIds
              (ProductForm.setSelectedColors [js "Red"] ProductForm.initial))
    as (Hout & Hkept & _).
  - right. reflexivity.
  - split; [exact Hout | exact Hkept].
Defined.

(** C3.  For colours Red, Blue, sizes S, M, selling price 100 and base
    SKU "SHI" the generator stores four records, SHI-RS, SHI-RM, SHI-BS,
    SHI-BM in this order, each with selling price 100, MRP 120, purchase
    price 70, GST 18 and inventory 10.  In general the SKU of a record is
    the prefix, a hyphen, the first code unit of the colour and the size;
    MRP and purchase price are the selling price times 1.2 and 0.7 in
    binary64 arithmetic; and the prefix is the base SKU when there is a
    non-empty one, else the first three code units of the product name in
    upper case, else "PRD" when the name is empty too. *)
Theorem C3_sku_and_default_pricing
    (toUpperCase : jsstring → jsstring) (randomId : nat → jsstring) :
  (∀ st : ProductForm.State,
      ProductForm.selectedColors st = [js "Red"; js "Blue"] →
      ProductForm.selectedSizes st = [js "S"; js "M"] →
      ProductForm.sellingPrice (ProductForm.values st) = 100%float →
      ProductForm.sku (ProductForm.values st) = Some (js "SHI") →
      let rows :=
        ProductForm.generatedVariants
          (ProductForm.generateOnClick toUpperCase randomId st).1 in
      VariantRecord.sku <$> rows = [js "SHI-RS"; js "SHI-RM"; js "SHI-BS"; js "SHI-BM"]
      ∧ VariantRecord.color <$> rows = [js "Red"; js "Red"; js "Blue"; js "Blue"]
      ∧ VariantRecord.size <$> rows = [js "S"; js "M"; js "S"; js "M"]
      ∧ VariantRecord.id <$> rows = [randomId 0; randomId 1; randomId 2; randomId 3]
      ∧ Forall (λ v, VariantRecord.sellingPrice v = 100%float
                     ∧ VariantRecord.mrp v = 120%float
                     ∧ VariantRecord.purchasePrice v = 70%float
                     ∧ VariantRecord.gst v = 18%float
                     ∧ VariantRecord.inventoryQuantity v = 10%float
                     ∧ VariantRecord.images v = []
                     ∧ VariantRecord.imageUrl v = None) rows)
  ∧ (∀ (st : ProductForm.State) (v : VariantRecord.t),
      ProductForm.selectedColors st ≠ [] → ProductForm.selectedSizes st ≠ [] →
      v ∈ ProductForm.generatedVariants
            (ProductForm.generateOnClick toUpperCase randomId st).1 →
      VariantRecord.sku v
      = ProductForm.baseSkuOf toUpperCase (ProductForm.values st)
          ++ js "-" ++ substring0 1 (VariantRecord.color v) ++ VariantRecord.size v
      ∧ VariantRecord.sellingPrice v = ProductForm.basePriceOf (ProductForm.values st)
      ∧ VariantRecord.mrp v = (VariantRecord.sellingPrice v * 1.2)%float
      ∧ VariantRecord.purchasePrice v = (VariantRecord.sellingPrice v * 0.7)%float
      ∧ VariantRecord.gst v = 18%float
      ∧ VariantRecord.inventoryQuantity v = 10%float)
  ∧ (∀ fv : ProductForm.ProductFormValues,
      (∀ s, ProductForm.sku fv = Some s → s ≠ js "" →
            ProductForm.baseSkuOf toUpperCase fv = s)
      ∧ (ProductForm.sku fv = None ∨ ProductForm.sku fv = Some (js "") →
         ProductForm.name fv ≠ js "" →
         ProductForm.baseSkuOf toUpperCase fv
         = toUpperCase (substring0 3 (ProductForm.name fv)))
      ∧ (ProductForm.sku fv = None ∨ ProductForm.sku fv = Some (js "") →
         ProductForm.name fv = js "" →
         ProductForm.baseSkuOf toUpperCase fv = js "PRD")).
Proof.
  split; [|split].
  - intros [tab fv colors sizes old cc cs] Hc Hs Hp Hk. simpl in *. subst.
    unfold ProductForm.generateOnClick, ProductForm.baseSkuOf,
      ProductForm.basePriceOf. simpl.
    rewrite Hp, Hk. simpl.
    repeat split; repeat constructor.
  - intros st v Hc Hs Hv.
    pose proof (generateOnClick_nonempty toUpperCase randomId st Hc Hs) as Hgen.
    simpl in Hgen. rewrite Hgen in Hv. simpl in Hv.
    apply list_elem_of_lookup in Hv as [k Hk].
    rewrite list_lookup_imap in Hk.
    destruct (matrix _ _ !! k) as [[c s]|]; simplify_eq/=.
    done.
  - intros fv. unfold ProductForm.baseSkuOf, ProductForm.namePrefixOf.
    split; [|split].
    + intros s -> Hs%truthy_true. by rewrite Hs.
    + intros [-> | ->] Hn%truthy_true; simpl; by rewrite Hn.
    + intros [-> | ->] ->; done.
Qed.

Lemma C3_witness :
  VariantRecord.sku <$>
    ProductForm.generatedVariants
      (ProductForm.generateOnClick asciiToUpperCase distinctIds
         {| ProductForm.activeTab := ProductForm.Tab.variants;
            ProductForm.values := {|
              ProductForm.name := js "Shirt"; ProductForm.description := None;
              ProductForm.purchasePrice := None;
              ProductForm.sellingPrice := 100%float;
              ProductForm.mrp := None; ProductForm.gst := None;
              ProductForm.sku := Some (js "SHI"); ProductForm.barcode := None;
              ProductForm.weight := None; ProductForm.dimensions := None;
              ProductForm.inventoryQuantity := None;
              ProductForm.status := js "active"; ProductForm.categoryId := None;
              ProductForm.featuredImageUrl := None;
              ProductForm.images := []; ProductForm.tags := [] |};
            ProductForm.selectedColors := [js "Red"; js "Blue"];
            ProductForm.selectedSizes := [js "S"; js "M"];
            ProductForm.generatedVariants := [];
            ProductForm.customColor := js ""; ProductForm.customSize := js "" |}).1
  = [js "SHI-RS"; js "SHI-RM"; js "SHI-BS"; js "SHI-BM"].
Proof.
  apply (C3_sku_and_default_pricing asciiToUpperCase distinctIds); reflexivity.
Defined.

(* ===================================================================== *)
(** ** Removing a variant, submitting the form *)
(* ===================================================================== *)

Section Removal.
Implicit Types (x : jsstring) (l : list VariantRecord.t).

Lemma id_not_in_filter x l :
  x ∉ VariantRecord.id <$> filter (λ v, VariantRecord.id v ≠ x) l.
Proof.
  intros (v & Hid & Hv)%list_elem_of_fmap.
  apply list_elem_of_filter in Hv as [Hne _]. by apply Hne.
Qed.

Lemma filter_id_absent x l :
  x ∉ VariantRecord.id <$> l → filter (λ v, VariantRecord.id v ≠ x) l = l.
Proof.
  induction l as [|v l IH]; [done|]. rewrite fmap_cons.
  intros [Hv Hl]%not_elem_of_cons.
  rewrite filter_cons_True by congruence. by rewrite IH.
Qed.

Lemma length_filter_id_NoDup x l :
  NoDup (VariantRecord.id <$> l) → x ∈ VariantRecord.id <$> l →
  S (length (filter (λ v, VariantRecord.id v ≠ x) l)) = length l.
Proof.
  induction l as [|v l IH]; rewrite ?fmap_cons.
  - by intros _ ?%elem_of_nil.
  - intros [Hv Hnd]%NoDup_cons Hx.
    destruct (decide (VariantRecord.id v = x)) as [<-|Hne].
    + rewrite filter_cons_False by (intros H; by apply H).
      by rewrite filter_id_absent.
    + rewrite filter_cons_True by done. simpl. f_equal. apply IH; [done|].
      apply elem_of_cons in Hx as [Hx|Hx]; [congruence | done].
Qed.

End Removal.

(** C8.  The delete button of a row is meant to delete that one
    record.  It filters by identifier, and the identifiers are drawn from
    [Math.random] without a check that they differ: when the third draw
    of a generation repeats the first, the rows Red/S and Blue/S carry
    the same identifier, and the delete button of the row Red/S removes
    both.  Four records become two, and the record Blue/S, whose button
    was not clicked, is gone. *)
Lemma C8_shared_identifier_removes_both :
  let st := (ProductForm.generateOnClick asciiToUpperCase collidingIds
               (ProductForm.setSelectedSizes [js "S"; js "M"]
                  (ProductForm.setSelectedColors [js "Red"; js "Blue"]
                     ProductForm.initial))).1 in
  let row := ProductForm.newVariant (distinctIds 0) (js "Red") (js "S") (js "PRD") 0%float in
  ProductForm.generatedVariants st !! 0 = Some row
  ∧ (λ v, (VariantRecord.color v, VariantRecord.size v))
      <$> ProductForm.generatedVariants st
    = [(js "Red", js "S"); (js "Red", js "M"); (js "Blue", js "S"); (js "Blue", js "M")]
  ∧ VariantRecord.id <$> ProductForm.generatedVariants st
    = [distinctIds 0; distinctIds 1; distinctIds 0; distinctIds 3]
  ∧ (λ v, (VariantRecord.color v, VariantRecord.size v))
      <$> ProductForm.generatedVariants (ProductForm.removeOnClick row st).1
    = [(js "Red", js "M"); (js "Blue", js "M")]
  ∧ length (ProductForm.generatedVariants (ProductForm.removeOnClick row st).1) + 1
    ≠ length (ProductForm.generatedVariants st).
Proof. repeat split. vm_compute. lia. Qed.

(** C10.  The body sent to the product endpoint has [hasVariants] true
    exactly when the generated collection is not empty; its [variants]
    field is undefined when the collection is empty and is the collection
    itself otherwise; the form values are passed on as they are. *)
Theorem C10_submit_payload
    (isEditing : bool) (productId : jsstring)
    (values : ProductForm.ProductFormValues) (st : ProductForm.State) :
  let body := ProductForm.productData values st in
  ProductForm.onSubmit isEditing productId values st
  = (if isEditing then ProductForm.PUT_product productId body
     else ProductForm.POST_products body)
  ∧ (ProductForm.hasVariants body = true ↔ ProductForm.generatedVariants st ≠ [])
  ∧ (ProductForm.generatedVariants st = [] →
     ProductForm.hasVariants body = false ∧ ProductForm.variants body = None)
  ∧ (ProductForm.generatedVariants st ≠ [] →
     ProductForm.hasVariants body = true
     ∧ ProductForm.variants body = Some (ProductForm.generatedVariants st))
  ∧ ProductForm.data body = values.
Proof.
  intros body. subst body. unfold ProductForm.onSubmit, ProductForm.productData. simpl.
  destruct (ProductForm.generatedVariants st) as [|v l] eqn:Hgv; simpl.
  - repeat split; try done; by destruct isEditing.
  - repeat split; try done; by destruct isEditing.
Qed.

(* ===================================================================== *)
(** ** The handlers on small inputs *)
(* ===================================================================== *)

Example trim_strips_both_ends :
  trim (js "  Navy Blue	 ") = js "Navy Blue" ∧ trim (js "   ") = js "".
Proof. split; reflexivity. Qed.

Example toggle_moves_label_to_the_end :
  ProductForm.toggleAttribute [js "Red"; js "Blue"] (js "Red") = [js "Blue"]
  ∧ ProductForm.toggleAttribute [js "Blue"] (js "Red") = [js "Blue"; js "Red"]
  ∧ ProductForm.toggleAttribute [js "Blue"] (js "red") = [js "Blue"; js "red"].
Proof. repeat split. Qed.

Example sku_prefix_from_name :
  VariantRecord.sku <$>
    ProductForm.generatedVariants
      (ProductForm.generateOnClick asciiToUpperCase distinctIds
         {| ProductForm.activeTab := ProductForm.Tab.variants;
            ProductForm.values := {|
              ProductForm.name := js "shirt"; ProductForm.description := None;
              ProductForm.purchasePrice := None;
              ProductForm.sellingPrice := 250%float;
              ProductForm.mrp := None; ProductForm.gst := None;
              ProductForm.sku := Some (js ""); ProductForm.barcode := None;
              ProductForm.weight := None; ProductForm.dimensions := None;
              ProductForm.inventoryQuantity := None;
              ProductForm.status := js "active"; ProductForm.categoryId := None;
              ProductForm.featuredImageUrl := None;
              ProductForm.images := []; ProductForm.tags := [] |};
            ProductForm.selectedColors := [js "Green"];
            ProductForm.selectedSizes := [js "XL"; js "XXL"];
            ProductForm.generatedVariants := [];
            ProductForm.customColor := js ""; ProductForm.customSize := js "" |}).1
  = [js "SHI-GXL"; js "SHI-GXXL"].
Proof. reflexivity. Qed.

Example media_next_leaves_the_tab_strip :
  ProductForm.activeTab
    (ProductForm.nextOnClick (ProductForm.setActiveTab ProductForm.Tab.media ProductForm.initial))
  = ProductForm.Tab.attributes.
Proof. reflexivity. Qed.

(* ===================================================================== *)
(** ** Further properties of the checkout wizard *)
(* ===================================================================== *)

Section CheckoutSessions.
Import Checkout CheckoutFlow.

Lemma min1_true (s : jsstring) : min1 s = true ↔ s ≠ [].
Proof.
  unfold min1. rewrite bool_decide_eq_true.
  destruct s; simpl; split; (done || lia).
Qed.

Lemma shippingAddressSchema_true (a : ShippingAddress) :
  shippingAddressSchema a = true ↔
  addressLine1 a ≠ [] ∧ city a ≠ [] ∧ state a ≠ [] ∧ postalCode a ≠ []
  ∧ country a ≠ [].
Proof.
  unfold shippingAddressSchema.
  rewrite !andb_true_iff, !min1_true. tauto.
Qed.

Lemma run_snoc (actions : list Action) (a : Action) :
  run (actions ++ [a]) = act (run actions) a.
Proof. unfold run. by rewrite fold_left_app. Qed.

(** One action keeps: the payment method is cash on delivery, and the
    address is valid once the shipping step is left. *)
Lemma act_keeps_invariant (st : State) (a : Action) :
  paymentMethod (values st) = Some cod
  ∧ (step st ≠ shipping → shippingAddressSchema (shippingAddress (values st)) = true) →
  paymentMethod (values (act st a)) = Some cod
  ∧ (step (act st a) ≠ shipping →
     shippingAddressSchema (shippingAddress (values (act st a))) = true).
Proof.
  intros [Hpay Haddr].
  destruct st as [s tab sel v]; simpl in *.
  destruct a as [f text|same addr|t|p|text| | | |]; simpl;
    unfold onShippingCard, onPaymentCard, onReviewCard,
      handleNextStep, handlePreviousStep, selectAddress; simpl;
    destruct s; simpl; try (split; [done | auto; done]).
  - destruct (same && _); simpl; (split; [done | auto]).
  - destruct p; simpl; (split; [done | auto]).
  - destruct (shippingAddressSchema (shippingAddress v)) eqn:Hv; simpl;
      (split; [done | auto; done]).
  - rewrite Hpay. simpl. split; [done | auto].
Qed.

Lemma run_invariant (actions : list Action) :
  paymentMethod (values (run actions)) = Some cod
  ∧ (step (run actions) ≠ shipping →
     shippingAddressSchema (shippingAddress (values (run actions))) = true).
Proof.
  induction actions as [|a actions IH] using rev_ind.
  - split; [done | by intros []].
  - rewrite run_snoc. by apply act_keeps_invariant.
Qed.

End CheckoutSessions.

(** X1.  In the checkout wizard a "Next" whose validation succeeds
    followed by "Back" gives back the state as it was, field for
    field. *)
Theorem X1_next_then_back_restores
    (st : Checkout.State) (f : Checkout.FieldName) :
  Checkout.groupOf (Checkout.step st) = Some f →
  Checkout.trigger f (Checkout.values st) = true →
  Checkout.handlePreviousStep (Checkout.handleNextStep st) = st.
Proof.
  intros Hg Hv. destruct st as [s tab sel v]. simpl in *.
  unfold Checkout.handleNextStep. simpl.
  destruct s; simpl in *; simplify_eq; simpl in Hv; by rewrite Hv.
Qed.

Lemma X1_witness :
  Checkout.handlePreviousStep
    (Checkout.handleNextStep (Checkout.setStep Checkout.payment Checkout.initial))
  = Checkout.setStep Checkout.payment Checkout.initial.
Proof.
  apply (X1_next_then_back_restores
           (Checkout.setStep Checkout.payment Checkout.initial)
           Checkout.f_paymentMethod); reflexivity.
Defined.

(** X2.  Picking a saved address on the shipping step, other than the
    object that is selected already, and pressing "Next" reaches the
    payment step exactly when the five required fields of the saved
    address are non-empty; either way the form then holds the fields of
    the saved address (an absent second line as the empty string) and its
    identifier, and the payment method and the notes are what they were.
    Picking the object that is selected already changes nothing: what
    has been typed into the form since stays. *)
Theorem X2_saved_address_then_next
    (sameObject : bool) (a : Checkout.CustomerAddress) (st : Checkout.State) :
  Checkout.step st = Checkout.shipping →
  sameObject = false ∨ Checkout.selectedAddress st ≠ Some a →
  let after := Checkout.handleNextStep (Checkout.selectAddress sameObject a st) in
  (Checkout.step after = Checkout.payment ↔
     Checkout.ca_addressLine1 a ≠ js "" ∧ Checkout.ca_city a ≠ js ""
     ∧ Checkout.ca_state a ≠ js "" ∧ Checkout.ca_postalCode a ≠ js ""
     ∧ Checkout.ca_country a ≠ js "")
  ∧ Checkout.shippingAddressId (Checkout.values after) = Some (Checkout.ca_id a)
  ∧ Checkout.shippingAddress (Checkout.values after)
    = {| Checkout.addressLine1 := Checkout.ca_addressLine1 a;
         Checkout.addressLine2 := Some (default (js "") (Checkout.ca_addressLine2 a));
         Checkout.city := Checkout.ca_city a;
         Checkout.state := Checkout.ca_state a;
         Checkout.postalCode := Checkout.ca_postalCode a;
         Checkout.country := Checkout.ca_country a |}
  ∧ Checkout.paymentMethod (Checkout.values after)
    = Checkout.paymentMethod (Checkout.values st)
  ∧ Checkout.notes (Checkout.values after) = Checkout.notes (Checkout.values st)
  ∧ Checkout.selectedAddress after = Some a
  ∧ (∀ st' : Checkout.State,
       Checkout.selectedAddress st' = Some a →
       Checkout.selectAddress true a st' = st'
       ∧ Checkout.handleNextStep (Checkout.selectAddress true a st')
         = Checkout.handleNextStep st').
Proof.
  intros Hs Hnew after. subst after.
  assert (Hcopy : Checkout.selectAddress sameObject a st
                  = {| Checkout.step := Checkout.step st;
                       Checkout.addressTab := Checkout.addressTab st;
                       Checkout.selectedAddress := Some a;
                       Checkout.values := Checkout.copyAddress a (Checkout.values st) |}).
  { unfold Checkout.selectAddress.
    destruct Hnew as [-> | Hne]; [done|].
    by rewrite (bool_decide_eq_false_2 _ Hne), andb_false_r. }
  assert (Hsame : ∀ st' : Checkout.State,
            Checkout.selectedAddress st' = Some a →
            Checkout.selectAddress true a st' = st').
  { intros st' Hsel. unfold Checkout.selectAddress.
    by rewrite (bool_decide_eq_true_2 _ Hsel). }
  rewrite Hcopy. clear Hcopy Hnew.
  destruct st as [s tab sel v]. simpl in Hs. subst s.
  assert (Hline2 :
    match Checkout.ca_addressLine2 a with
    | Some l2 => if truthy l2 then l2 else js ""
    | None => js ""
    end = default (js "") (Checkout.ca_addressLine2 a)).
  { destruct (Checkout.ca_addressLine2 a) as [[|c l2]|]; done. }
  assert (Hrepick : ∀ st' : Checkout.State,
            Checkout.selectedAddress st' = Some a →
            Checkout.selectAddress true a st' = st'
            ∧ Checkout.handleNextStep (Checkout.selectAddress true a st')
              = Checkout.handleNextStep st').
  { intros st' Hsel. by rewrite (Hsame st' Hsel). }
  unfold Checkout.handleNextStep at 1 2 3 4 5 6. unfold Checkout.copyAddress. simpl.
  rewrite Hline2.
  destruct (Checkout.shippingAddressSchema _) eqn:Hv; simpl;
    (split; [|do 5 (split; [done|]); exact Hrepick]).
  - apply shippingAddressSchema_true in Hv. simpl in Hv.
    split; [intros _; exact Hv | done].
  - split; [done|]. intros Hfields. exfalso.
    assert (Checkout.shippingAddressSchema
              {| Checkout.addressLine1 := Checkout.ca_addressLine1 a;
                 Checkout.addressLine2 := Some (default (js "") (Checkout.ca_addressLine2 a));
                 Checkout.city := Checkout.ca_city a;
                 Checkout.state := Checkout.ca_state a;
                 Checkout.postalCode := Checkout.ca_postalCode a;
                 Checkout.country := Checkout.ca_country a |} = true) as Hok
      by (apply shippingAddressSchema_true; exact Hfields).
    unfold Checkout.shippingAddressSchema in Hv, Hok. simpl in Hv, Hok.
    congruence.
Qed.

Lemma X2_witness :
  let a := {| Checkout.ca_id := 7; Checkout.ca_customerId := 1;
              Checkout.ca_addressLine1 := js "12 MG Road";
              Checkout.ca_addressLine2 := None;
              Checkout.ca_city := js "Pune"; Checkout.ca_state := js "MH";
              Checkout.ca_postalCode := js "411001";
              Checkout.ca_country := js "India";
              Checkout.ca_isDefault := None;
              Checkout.ca_createdAt := js "2025-01-01" |} in
  Checkout.step
    (Checkout.handleNextStep (Checkout.selectAddress false a Checkout.initial))
  = Checkout.payment.
Proof.
  intros a.
  destruct (X2_saved_address_then_next false a Checkout.initial) as [Hiff _].
  - reflexivity.
  - left. reflexivity.
  - apply Hiff. vm_compute. repeat split; discriminate.
Defined.

(** X3.  Whatever the user does with the controls of the checkout
    wizard, starting from the initial state, the payment method stays
    cash on delivery (the other two radio items are disabled), and the
    wizard is past the shipping step only while the shipping address in
    the form passes its validation. *)
Theorem X3_checkout_session_invariant (actions : list CheckoutFlow.Action) :
  Checkout.paymentMethod (Checkout.values (CheckoutFlow.run actions))
  = Some Checkout.cod
  ∧ (Checkout.step (CheckoutFlow.run actions) ≠ Checkout.shipping →
     Checkout.shippingAddressSchema
       (Checkout.shippingAddress (Checkout.values (CheckoutFlow.run actions)))
     = true)
  ∧ (Checkout.step (CheckoutFlow.run actions) ≠ Checkout.shipping →
     let address :=
       Checkout.shippingAddress (Checkout.values (CheckoutFlow.run actions)) in
     Checkout.addressLine1 address ≠ js "" ∧ Checkout.city address ≠ js ""
     ∧ Checkout.state address ≠ js "" ∧ Checkout.postalCode address ≠ js ""
     ∧ Checkout.country address ≠ js "").
Proof.
  destruct (run_invariant actions) as [Hpay Haddr].
  split; [exact Hpay|]. split; [exact Haddr|].
  intros Hstep address. specialize (Haddr Hstep).
  by apply shippingAddressSchema_true in Haddr.
Qed.

(** X4.  Whenever a session of the checkout wizard is on the review
    step, "Place Order" passes the form's validation and sends the form
    values as they are together with the vendor identifier, and the
    review card names the payment method "Cash on Delivery".  On the
    other steps there is no "Place Order". *)
Theorem X4_place_order_on_review
    (vendor : Z) (actions : list CheckoutFlow.Action) :
  Checkout.step (CheckoutFlow.run actions) = Checkout.review →
  CheckoutFlow.placeOrder vendor (CheckoutFlow.run actions)
  = Some {| CheckoutFlow.body := Checkout.values (CheckoutFlow.run actions);
            CheckoutFlow.vendorId := vendor |}
  ∧ CheckoutFlow.reviewPaymentLabel (Checkout.values (CheckoutFlow.run actions))
    = js "Cash on Delivery"
  ∧ ∀ st : Checkout.State,
      Checkout.step st ≠ Checkout.review → CheckoutFlow.placeOrder vendor st = None.
Proof.
  intros Hreview.
  destruct (run_invariant actions) as [Hpay Haddr].
  assert (Hok : Checkout.shippingAddressSchema
                  (Checkout.shippingAddress (Checkout.values (CheckoutFlow.run actions)))
                = true) by (apply Haddr; by rewrite Hreview).
  unfold CheckoutFlow.placeOrder, CheckoutFlow.handleSubmit,
    CheckoutFlow.checkoutFormSchema, CheckoutFlow.reviewPaymentLabel.
  rewrite Hreview, Hok, Hpay. simpl. repeat split.
  intros st Hst. by destruct (Checkout.step st).
Qed.

Lemma X4_witness :
  let actions :=
    [CheckoutFlow.TypeAddress CheckoutFlow.in_addressLine1 (js "12 MG Road");
     CheckoutFlow.TypeAddress CheckoutFlow.in_city (js "Pune");
     CheckoutFlow.TypeAddress CheckoutFlow.in_state (js "MH");
     CheckoutFlow.TypeAddress CheckoutFlow.in_postalCode (js "411001");
     CheckoutFlow.Next;
     CheckoutFlow.TypeNotes (js "Ring twice");
     CheckoutFlow.Next] in
  CheckoutFlow.placeOrder 42 (CheckoutFlow.run actions)
  = Some {| CheckoutFlow.body := Checkout.values (CheckoutFlow.run actions);
            CheckoutFlow.vendorId := 42 |}.
Proof.
  intros actions.
  apply (X4_place_order_on_review 42 actions). reflexivity.
Defined.

(** X5.  From the review step of a session, "Change" beside the address
    followed by "Next" twice, and "Change" beside the payment method
    followed by "Next" once, lead back to the very same review state when
    nothing is edited in between: the jump back loses nothing, and the
    way forward is again through the validations. *)
Theorem X5_change_and_return (actions : list CheckoutFlow.Action) :
  Checkout.step (CheckoutFlow.run actions) = Checkout.review →
  CheckoutFlow.run
    (actions ++ [CheckoutFlow.ChangeAddress; CheckoutFlow.Next; CheckoutFlow.Next])
  = CheckoutFlow.run actions
  ∧ CheckoutFlow.run (actions ++ [CheckoutFlow.ChangePayment; CheckoutFlow.Next])
    = CheckoutFlow.run actions
  ∧ Checkout.step (CheckoutFlow.run (actions ++ [CheckoutFlow.ChangeAddress]))
    = Checkout.shipping
  ∧ Checkout.values (CheckoutFlow.run (actions ++ [CheckoutFlow.ChangeAddress]))
    = Checkout.values (CheckoutFlow.run actions).
Proof.
  intros Hreview.
  destruct (run_invariant actions) as [Hpay Haddr].
  assert (Hok : Checkout.shippingAddressSchema
                  (Checkout.shippingAddress (Checkout.values (CheckoutFlow.run actions)))
                = true) by (apply Haddr; by rewrite Hreview).
  unfold CheckoutFlow.run in *. rewrite !fold_left_app. simpl.
  destruct (fold_left CheckoutFlow.act actions Checkout.initial) as [s tab sel v].
  simpl in *. subst s.
  unfold Checkout.onReviewCard, Checkout.handleNextStep. simpl.
  rewrite Hok. simpl. rewrite Hpay. simpl. done.
Qed.

Lemma X5_witness :
  let actions :=
    [CheckoutFlow.TypeAddress CheckoutFlow.in_addressLine1 (js "12 MG Road");
     CheckoutFlow.TypeAddress CheckoutFlow.in_city (js "Pune");
     CheckoutFlow.TypeAddress CheckoutFlow.in_state (js "MH");
     CheckoutFlow.TypeAddress CheckoutFlow.in_postalCode (js "411001");
     CheckoutFlow.Next; CheckoutFlow.Next] in
  CheckoutFlow.run
    (actions ++ [CheckoutFlow.ChangeAddress; CheckoutFlow.Next; CheckoutFlow.Next])
  = CheckoutFlow.run actions.
Proof.
  intros actions.
  apply (X5_change_and_return actions). reflexivity.
Defined.

(* ===================================================================== *)
(** ** Further properties of the attribute sets *)
(* ===================================================================== *)

Section AttributeSetInvariants.
Import ProductForm.

Lemma selected_setSelected_other (a b : Attribute) (l : list jsstring) (st : State) :
  a ≠ b → selected a (setSelected b l st) = selected a st.
Proof. by destruct a, b. Qed.

Lemma NoDup_selected_setSelected (a b : Attribute) (l : list jsstring) (st : State) :
  NoDup (selected a st) → NoDup l → NoDup (selected a (setSelected b l st)).
Proof.
  intros Hst Hl. destruct (decide (a = b)) as [->|Hne].
  - by rewrite selected_setSelected.
  - by rewrite selected_setSelected_other.
Qed.

Lemma NoDup_snoc_absent (l : list jsstring) (x : jsstring) :
  NoDup l → x ∉ l → NoDup (l ++ [x]).
Proof.
  intros Hl Hx. apply NoDup_app. split; [done|]. split.
  - intros y Hy ->%list_elem_of_singleton. by apply Hx.
  - apply NoDup_singleton.
Qed.

Lemma NoDup_toggleAttribute (l : list jsstring) (label : jsstring) :
  NoDup l → NoDup (toggleAttribute l label).
Proof.
  intros Hl. destruct (decide (label ∈ l)) as [Hin|Hout].
  - rewrite toggle_present by done. by apply NoDup_filter.
  - rewrite toggle_absent by done. by apply NoDup_snoc_absent.
Qed.

Lemma trimStart_idempotent (s : jsstring) : trimStart (trimStart s) = trimStart s.
Proof.
  induction s as [|c s IH]; [done|]. simpl.
  destruct (isWhiteSpace c) eqn:Hc; [done|]. simpl. by rewrite Hc.
Qed.

Lemma trimStart_head (s u : jsstring) (c : N) :
  trimStart s = c :: u → isWhiteSpace c = false.
Proof.
  induction s as [|d s IH]; [done|]. simpl.
  destruct (isWhiteSpace d) eqn:Hd; [done|]. by intros [= <- _].
Qed.

Lemma trimStart_fixed (c : N) (s : jsstring) :
  isWhiteSpace c = false → trimStart (c :: s) = c :: s.
Proof. intros Hc. simpl. by rewrite Hc. Qed.

(** Stripping the blanks in front of a text that ends with a non-blank
    leaves a text that still ends with it. *)
Lemma trimStart_snoc (s : jsstring) (c : N) :
  isWhiteSpace c = false → ∃ s', trimStart (s ++ [c]) = s' ++ [c].
Proof.
  intros Hc. induction s as [|d s [s' IH]]; simpl.
  - rewrite Hc. by exists [].
  - destruct (isWhiteSpace d); [by exists s'|]. by exists (d :: s).
Qed.

Lemma trim_idempotent (s : jsstring) : trim (trim s) = trim s.
Proof.
  unfold trim.
  destruct (trimStart s) as [|c u] eqn:Hu; [done|].
  pose proof (trimStart_head s u c Hu) as Hc.
  assert (Hhead : ∃ r, trimEnd (c :: u) = c :: r).
  { unfold trimEnd. rewrite reverse_cons.
    destruct (trimStart_snoc (reverse u) c Hc) as [s' ->].
    rewrite reverse_app. simpl. by eexists. }
  destruct Hhead as [r Hr].
  rewrite Hr, (trimStart_fixed c r Hc), <- Hr.
  unfold trimEnd. by rewrite reverse_involutive, trimStart_idempotent.
Qed.

End AttributeSetInvariants.

(** X6.  Every handler of the attribute controls (badge, custom badge,
    Enter in the input, "Add" handler and button), of either attribute,
    keeps both sets free of duplicates. *)
Theorem X6_attribute_sets_stay_duplicate_free
    (a b : ProductForm.Attribute) (st : ProductForm.State) :
  NoDup (ProductForm.selected a st) →
  (∀ label, NoDup (ProductForm.selected a (ProductForm.badgeOnClick b label st).1))
  ∧ (∀ label, NoDup (ProductForm.selected a (ProductForm.customBadgeOnClick b label st).1))
  ∧ (∀ key, NoDup (ProductForm.selected a (ProductForm.inputOnKeyDown b key st).1))
  ∧ NoDup (ProductForm.selected a (ProductForm.addOnClick b st).1)
  ∧ NoDup (ProductForm.selected a (ProductForm.addButton b st).1).
Proof.
  intros Hst.
  assert (Hset : ∀ l, (a = b → NoDup l) →
                      NoDup (ProductForm.selected a (ProductForm.setSelected b l st))).
  { intros l Hl. destruct (decide (a = b)) as [->|Hne].
    - rewrite selected_setSelected. by apply Hl.
    - by rewrite selected_setSelected_other. }
  assert (Hadd : NoDup (ProductForm.selected a (ProductForm.addOnClick b st).1)).
  { unfold ProductForm.addOnClick.
    destruct (truthy _); simpl;
      destruct (includes _ _) eqn:Hinc; simpl; try done.
    rewrite selected_setCustom. apply Hset. intros ->.
    apply includes_false in Hinc. by apply NoDup_snoc_absent. }
  split; [|split; [|split; [|split]]].
  - intros label. simpl. apply Hset. intros ->. by apply NoDup_toggleAttribute.
  - intros label. simpl. apply Hset. intros ->. by apply NoDup_filter.
  - intros key. unfold ProductForm.inputOnKeyDown.
    destruct (bool_decide _ && truthy _); simpl; [|done].
    destruct (includes _ _) eqn:Hinc; simpl; [done|].
    rewrite selected_setCustom. apply Hset. intros ->.
    apply includes_false in Hinc. by apply NoDup_snoc_absent.
  - exact Hadd.
  - unfold ProductForm.addButton, ProductForm.button.
    by destruct (ProductForm.addDisabled b st).
Qed.

Lemma X6_witness :
  NoDup (ProductForm.selected ProductForm.Color
           (ProductForm.badgeOnClick ProductForm.Color (js "Red")
              (ProductForm.setSelectedColors [js "Blue"; js "Red"] ProductForm.initial)).1).
Proof.
  apply (X6_attribute_sets_stay_duplicate_free ProductForm.Color ProductForm.Color
           (ProductForm.setSelectedColors [js "Blue"; js "Red"] ProductForm.initial)).
  apply (bool_decide_unpack _). vm_compute. reflexivity.
Defined.

(** X7.  Adding a custom label (by Enter or by the "Add" button) and
    then clicking the badge of that label gives back the state before the
    addition, except that the input has been emptied. *)
Theorem X7_add_then_remove_custom_label
    (a : ProductForm.Attribute) (st : ProductForm.State) :
  trim (ProductForm.custom a st) ≠ js "" →
  trim (ProductForm.custom a st) ∉ ProductForm.selected a st →
  (ProductForm.customBadgeOnClick a (trim (ProductForm.custom a st))
     (ProductForm.addButton a st).1).1
  = ProductForm.setCustom a (js "") st
  ∧ (ProductForm.customBadgeOnClick a (trim (ProductForm.custom a st))
       (ProductForm.inputOnKeyDown a (js "Enter") st).1).1
    = ProductForm.setCustom a (js "") st.
Proof.
  intros Hne Hout.
  pose proof Hne as Ht%truthy_true. pose proof Hout as Hi%includes_false.
  assert (Hfilter :
    filter (λ c, c ≠ trim (ProductForm.custom a st))
      (ProductForm.selected a st ++ [trim (ProductForm.custom a st)])
    = ProductForm.selected a st).
  { rewrite filter_app, filter_absent by done.
    rewrite (filter_singleton_False _ (trim (ProductForm.custom a st)) [])
      by (intros H; by apply H).
    by rewrite app_nil_r. }
  unfold ProductForm.addButton, ProductForm.button, ProductForm.addDisabled,
    ProductForm.addOnClick, ProductForm.inputOnKeyDown,
    ProductForm.customBadgeOnClick.
  rewrite Ht, Hi. simpl.
  rewrite selected_setCustom, selected_setSelected, Hfilter.
  destruct a, st; done.
Qed.

Lemma X7_witness :
  (ProductForm.customBadgeOnClick ProductForm.Size (js "38")
     (ProductForm.addButton ProductForm.Size
        (ProductForm.setCustomSize (js " 38 ")
           (ProductForm.setSelectedSizes [js "M"] ProductForm.initial))).1).1
  = ProductForm.setSelectedSizes [js "M"] ProductForm.initial.
Proof.
  refine (proj1 (X7_add_then_remove_custom_label ProductForm.Size
                   (ProductForm.setCustomSize (js " 38 ")
                      (ProductForm.setSelectedSizes [js "M"] ProductForm.initial))
                   _ _)).
  - vm_compute. discriminate.
  - apply (proj1 (bool_decide_eq_false _)). vm_compute. reflexivity.
Defined.

(** X8.  A label that enters a set through the custom input (Enter or
    the "Add" button) is the trimmed text of the input: it is not empty
    and trimming it again changes nothing.  All other members were
    members before. *)
Theorem X8_custom_labels_are_trimmed
    (a : ProductForm.Attribute) (st : ProductForm.State) (x : jsstring) :
  x ∈ ProductForm.selected a (ProductForm.addButton a st).1
  ∨ x ∈ ProductForm.selected a (ProductForm.inputOnKeyDown a (js "Enter") st).1 →
  x ∈ ProductForm.selected a st
  ∨ (x = trim (ProductForm.custom a st) ∧ x ≠ js "" ∧ trim x = x).
Proof.
  assert (Hnew : ∀ l : list jsstring,
    truthy (trim (ProductForm.custom a st)) = true →
    x ∈ l ++ [trim (ProductForm.custom a st)] →
    x ∈ l ∨ (x = trim (ProductForm.custom a st) ∧ x ≠ [] ∧ trim x = x)).
  { intros l Ht%truthy_true [Hx | ->%list_elem_of_singleton]%elem_of_app;
      [by left | right]. by rewrite trim_idempotent. }
  unfold ProductForm.addButton, ProductForm.button, ProductForm.addDisabled,
    ProductForm.addOnClick, ProductForm.inputOnKeyDown. simpl.
  destruct (truthy (trim (ProductForm.custom a st))) eqn:Ht; simpl.
  - destruct (includes _ _); simpl;
      rewrite ?selected_setCustom, ?selected_setSelected;
      intros [Hx|Hx]; auto.
  - intros [Hx|Hx]; by left.
Qed.

Lemma X8_witness :
  js "Navy" ∈ ProductForm.selected ProductForm.Color ProductForm.initial
  ∨ (js "Navy" = trim (js "  Navy ") ∧ js "Navy" ≠ js "" ∧ trim (js "Navy") = js "Navy").
Proof.
  apply (X8_custom_labels_are_trimmed ProductForm.Color
           (ProductForm.setCustomColor (js "  Navy ") ProductForm.initial)).
  left. apply (bool_decide_unpack _). vm_compute. reflexivity.
Defined.

(* ===================================================================== *)
(** ** Further properties of the variant matrix *)
(* ===================================================================== *)

Section MatrixFacts.

Lemma elem_of_matrix (colors sizes : list jsstring) (c s : jsstring) :
  (c, s) ∈ matrix colors sizes ↔ c ∈ colors ∧ s ∈ sizes.
Proof.
  induction colors as [|c0 colors IH]; simpl.
  - split; [by intros ?%elem_of_nil | by intros [?%elem_of_nil _]].
  - rewrite elem_of_app, list_elem_of_fmap, IH, elem_of_cons. split.
    + intros [(s' & [= -> ->] & Hs) | [Hc Hs]]; auto.
    + intros [[-> | Hc] Hs]; [left; by exists s | by right].
Qed.

Lemma NoDup_matrix (colors sizes : list jsstring) :
  NoDup colors → NoDup sizes → NoDup (matrix colors sizes).
Proof.
  intros Hc Hs. induction Hc as [|c0 colors Hc0 Hc IH]; simpl.
  - apply NoDup_nil_2.
  - apply NoDup_app. split; [|split; [|done]].
    + apply NoDup_fmap_2; [|done]. by intros s1 s2 [= ->].
    + intros [c s] (s' & [= -> ->] & _)%list_elem_of_fmap [Hin _]%elem_of_matrix.
      by apply Hc0.
Qed.

(** What "Generate Variant Matrix" stores when both sets are
    non-empty. *)
Lemma generated_rows
    (toUpperCase : jsstring → jsstring) (randomId : nat → jsstring)
    (st : ProductForm.State) :
  ProductForm.selectedColors st ≠ [] → ProductForm.selectedSizes st ≠ [] →
  ProductForm.generatedVariants (ProductForm.generateOnClick toUpperCase randomId st).1
  = imap (rowAt randomId (ProductForm.baseSkuOf toUpperCase (ProductForm.values st))
            (ProductForm.basePriceOf (ProductForm.values st)) 0)
         (matrix (ProductForm.selectedColors st) (ProductForm.selectedSizes st)).
Proof.
  intros Hc Hs.
  pose proof (generateOnClick_nonempty toUpperCase randomId st Hc Hs) as Hgen.
  simpl in Hgen. by rewrite Hgen.
Qed.

Lemma lookup_nonempty {A} (l : list A) (i : nat) (x : A) : l !! i = Some x → l ≠ [].
Proof. by destruct l. Qed.

End MatrixFacts.

(** X9.  Every generated record carries a colour of the colour set and a
    size of the size set, every combination of a selected colour and a
    selected size has a record, and when neither set has duplicates no
    combination occurs twice. *)
Theorem X9_generated_records_cover_the_selection
    (toUpperCase : jsstring → jsstring) (randomId : nat → jsstring)
    (st : ProductForm.State) :
  ProductForm.selectedColors st ≠ [] → ProductForm.selectedSizes st ≠ [] →
  let rows :=
    ProductForm.generatedVariants
      (ProductForm.generateOnClick toUpperCase randomId st).1 in
  (∀ v, v ∈ rows →
        VariantRecord.color v ∈ ProductForm.selectedColors st
        ∧ VariantRecord.size v ∈ ProductForm.selectedSizes st)
  ∧ (∀ c s, c ∈ ProductForm.selectedColors st → s ∈ ProductForm.selectedSizes st →
            ∃ v, v ∈ rows ∧ VariantRecord.color v = c ∧ VariantRecord.size v = s)
  ∧ (NoDup (ProductForm.selectedColors st) → NoDup (ProductForm.selectedSizes st) →
     NoDup ((λ v, (VariantRecord.color v, VariantRecord.size v)) <$> rows)).
Proof.
  intros Hc Hs rows. subst rows. rewrite generated_rows by done.
  split; [|split].
  - intros v [k Hk]%list_elem_of_lookup.
    rewrite list_lookup_imap in Hk.
    destruct (matrix _ _ !! k) as [[c s]|] eqn:Hp; simplify_eq/=.
    apply list_elem_of_lookup_2, elem_of_matrix in Hp. done.
  - intros c s Hci Hsi.
    assert ((c, s) ∈ matrix (ProductForm.selectedColors st)
                       (ProductForm.selectedSizes st)) as [k Hk]%list_elem_of_lookup
      by (by apply elem_of_matrix).
    eexists. split.
    + apply list_elem_of_lookup. exists k. rewrite list_lookup_imap, Hk. done.
    + done.
  - intros Hnc Hns.
    assert ((λ v, (VariantRecord.color v, VariantRecord.size v))
              <$> imap (rowAt randomId
                          (ProductForm.baseSkuOf toUpperCase (ProductForm.values st))
                          (ProductForm.basePriceOf (ProductForm.values st)) 0)
                       (matrix (ProductForm.selectedColors st)
                          (ProductForm.selectedSizes st))
            = matrix (ProductForm.selectedColors st) (ProductForm.selectedSizes st))
      as ->.
    { rewrite fmap_imap. apply list_eq. intros k. rewrite list_lookup_imap.
      by destruct (matrix _ _ !! k) as [[c s]|]. }
    by apply NoDup_matrix.
Qed.

Lemma X9_witness :
  NoDup ((λ v, (VariantRecord.color v, VariantRecord.size v)) <$>
           ProductForm.generatedVariants
             (ProductForm.generateOnClick asciiToUpperCase repeatedIds
                (ProductForm.setSelectedSizes [js "S"; js "M"]
                   (ProductForm.setSelectedColors [js "Red"; js "Blue"]
                      ProductForm.initial))).1).
Proof.
  refine (proj2 (proj2 (X9_generated_records_cover_the_selection
                          asciiToUpperCase repeatedIds
                          (ProductForm.setSelectedSizes [js "S"; js "M"]
                             (ProductForm.setSelectedColors [js "Red"; js "Blue"]
                                ProductForm.initial)) _ _)) _ _).
  - done.
  - done.
  - apply (bool_decide_unpack _). vm_compute. reflexivity.
  - apply (bool_decide_unpack _). vm_compute. reflexivity.
Defined.

(** X10.  Two generated records have the same SKU exactly when their
    sizes are equal and their colours begin with the same code unit: the
    SKU tells colours apart by their first letter only, so "Blue" and
    "Black" share their SKUs size by size. *)
Theorem X10_sku_collisions
    (toUpperCase : jsstring → jsstring) (randomId : nat → jsstring)
    (st : ProductForm.State) (i1 i2 j1 j2 : nat) (c1 c2 s1 s2 : jsstring) :
  ProductForm.selectedColors st !! i1 = Some c1 →
  ProductForm.selectedColors st !! i2 = Some c2 →
  ProductForm.selectedSizes st !! j1 = Some s1 →
  ProductForm.selectedSizes st !! j2 = Some s2 →
  c1 ≠ js "" → c2 ≠ js "" →
  let rows :=
    ProductForm.generatedVariants
      (ProductForm.generateOnClick toUpperCase randomId st).1 in
  let n := length (ProductForm.selectedSizes st) in
  (VariantRecord.sku <$> rows !! (i1 * n + j1)) = (VariantRecord.sku <$> rows !! (i2 * n + j2))
  ↔ substring0 1 c1 = substring0 1 c2 ∧ s1 = s2.
Proof.
  intros Hc1 Hc2 Hs1 Hs2 Hne1 Hne2 rows n. subst rows n.
  rewrite generated_rows by (by eapply lookup_nonempty).
  rewrite !list_lookup_imap.
  rewrite (lookup_matrix _ _ _ _ _ _ Hc1 Hs1), (lookup_matrix _ _ _ _ _ _ Hc2 Hs2).
  simpl. destruct c1 as [|x1 c1]; [done|]. destruct c2 as [|x2 c2]; [done|].
  unfold substring0. simpl. split.
  - intros [= H]. apply app_inv_head in H. by simplify_eq.
  - by intros [[= ->] ->].
Qed.

Lemma X10_witness :
  let st := ProductForm.setSelectedSizes [js "S"; js "M"]
              (ProductForm.setSelectedColors [js "Blue"; js "Red"; js "Black"]
                 ProductForm.initial) in
  let rows :=
    ProductForm.generatedVariants
      (ProductForm.generateOnClick asciiToUpperCase distinctIds st).1 in
  (VariantRecord.sku <$> rows !! (0 * 2 + 1)) = (VariantRecord.sku <$> rows !! (2 * 2 + 1)).
Proof.
  intros st rows.
  apply (X10_sku_collisions asciiToUpperCase distinctIds st 0 2 1 1
           (js "Blue") (js "Black") (js "M") (js "M"));
    try reflexivity; try discriminate.
  split; reflexivity.
Defined.

(** X11.  After a generation with both sets non-empty the payload of a
    submission carries [hasVariants = true] and the |colours| x |sizes|
    generated records; after "Clear All" the payload carries
    [hasVariants = false] and no [variants] field, and nothing else of
    the state has changed. *)
Theorem X11_generate_or_clear_then_submit
    (toUpperCase : jsstring → jsstring) (randomId : nat → jsstring)
    (fv : ProductForm.ProductFormValues) (st : ProductForm.State) :
  ProductForm.selectedColors st ≠ [] → ProductForm.selectedSizes st ≠ [] →
  let generated := (ProductForm.generateOnClick toUpperCase randomId st).1 in
  let cleared := (ProductForm.clearAllOnClick generated).1 in
  ProductForm.hasVariants (ProductForm.productData fv generated) = true
  ∧ ProductForm.variants (ProductForm.productData fv generated)
    = Some (ProductForm.generatedVariants generated)
  ∧ length (ProductForm.generatedVariants generated)
    = length (ProductForm.selectedColors st) * length (ProductForm.selectedSizes st)
  ∧ ProductForm.hasVariants (ProductForm.productData fv cleared) = false
  ∧ ProductForm.variants (ProductForm.productData fv cleared) = None
  ∧ cleared = ProductForm.setGeneratedVariants [] st.
Proof.
  intros Hc Hs generated cleared.
  assert (Hlen : length (ProductForm.generatedVariants generated)
                 = length (ProductForm.selectedColors st)
                   * length (ProductForm.selectedSizes st)).
  { unfold generated. rewrite generated_rows by done.
    by rewrite length_imap, length_matrix. }
  assert (Hpos : 0 < length (ProductForm.generatedVariants generated)).
  { rewrite Hlen. destruct (ProductForm.selectedColors st); [done|].
    destruct (ProductForm.selectedSizes st); [done|]. simpl. lia. }
  unfold ProductForm.productData. simpl.
  rewrite (bool_decide_eq_true_2 _ Hpos).
  repeat split; try done.
  unfold cleared, generated.
  pose proof (generateOnClick_nonempty toUpperCase randomId st Hc Hs) as Hgen.
  simpl in Hgen. rewrite Hgen. by destruct st.
Qed.

Lemma X11_witness :
  ProductForm.hasVariants
    (ProductForm.productData ProductForm.defaultValues
       (ProductForm.generateOnClick asciiToUpperCase distinctIds
          (ProductForm.setSelectedSizes [js "S"]
             (ProductForm.setSelectedColors [js "Red"] ProductForm.initial))).1)
  = true.
Proof.
  refine (proj1 (X11_generate_or_clear_then_submit asciiToUpperCase distinctIds
                   ProductForm.defaultValues
                   (ProductForm.setSelectedSizes [js "S"]
                      (ProductForm.setSelectedColors [js "Red"] ProductForm.initial))
                   _ _)); done.
Defined.

(* ===================================================================== *)
(** ** Tags, images and the price input *)
(* ===================================================================== *)

Section HelperFacts.
Import ProductForm ProductFormHelpers.

Lemma setTags_same (v : ProductFormValues) : setTags (tags v) v = v.
Proof. by destruct v. Qed.

Lemma setImages_same (v : ProductFormValues) : setImages (images v) v = v.
Proof. by destruct v. Qed.

(** Dropping the element at [index] with the indexed filter, for a
    counter that starts at [from]. *)
Lemma filterIndexed_remove {A} (l : list A) (from index : nat) :
  JSArray.filterIndexed (λ _ i, negb (i =? from + index)) from l
  = take index l ++ drop (S index) l.
Proof.
  revert from index. induction l as [|x l IH]; intros from index; simpl.
  - by destruct index.
  - destruct index as [|index]; simpl.
    + rewrite Nat.add_0_r, Nat.eqb_refl. simpl.
      clear IH. rewrite drop_0.
      assert (∀ k, from < k →
                JSArray.filterIndexed (λ (_ : A) i, negb (i =? from)) k l = l) as Hrest.
      { induction l as [|y l IHl]; intros k Hk; simpl; [done|].
        rewrite (proj2 (Nat.eqb_neq k from)) by lia. simpl.
        by rewrite IHl by lia. }
      apply Hrest. lia.
    + rewrite (proj2 (Nat.eqb_neq from (from + S index))) by lia. simpl.
      f_equal. rewrite <- (IH (S from) index).
      by replace (S from + index) with (from + S index) by lia.
Qed.

End HelperFacts.

(** X12.  [addTag] does nothing for the empty tag.  For a tag that is in
    the list already it leaves the form exactly as it is, order included,
    and only empties the input.  A new tag is appended at the end and the
    input is emptied.  So it never stores the empty tag and never stores
    a tag a second time: a duplicate-free tag list stays duplicate-free,
    and adding the same tag again changes nothing.  Only the tag list of
    the form is written, and in the tag input only Enter calls it. *)
Theorem X12_addTag
    (tag : jsstring) (fv : ProductForm.ProductFormValues) :
  let after := (ProductFormHelpers.addTag tag fv).2 in
  (tag = js "" → ProductFormHelpers.addTag tag fv = (tag, fv))
  ∧ (tag ≠ js "" → tag ∈ ProductForm.tags fv →
     ProductFormHelpers.addTag tag fv = (js "", fv))
  ∧ (tag ≠ js "" → tag ∉ ProductForm.tags fv →
     ProductFormHelpers.addTag tag fv
     = (js "", ProductFormHelpers.setTags (ProductForm.tags fv ++ [tag]) fv))
  ∧ (NoDup (ProductForm.tags fv) → NoDup (ProductForm.tags after))
  ∧ (js "" ∉ ProductForm.tags fv → js "" ∉ ProductForm.tags after)
  ∧ (tag ≠ js "" →
     tag ∈ ProductForm.tags after ∧ (ProductFormHelpers.addTag tag fv).1 = js "")
  ∧ (tag ∉ ProductForm.tags fv → tag ≠ js "" →
     ProductForm.tags after = ProductForm.tags fv ++ [tag])
  ∧ ProductFormHelpers.addTag tag after
    = ((ProductFormHelpers.addTag tag fv).1, after)
  ∧ after = ProductFormHelpers.setTags (ProductForm.tags after) fv
  ∧ (∀ key, key ≠ js "Enter" → ProductFormHelpers.tagOnKeyDown key tag fv = (tag, fv))
  ∧ ProductFormHelpers.tagOnKeyDown (js "Enter") tag fv = ProductFormHelpers.addTag tag fv.
Proof.
  intros after.
  assert (Hempty : tag = [] → ProductFormHelpers.addTag tag fv = (tag, fv)).
  { by intros ->. }
  assert (Hpresent : tag ≠ [] → tag ∈ ProductForm.tags fv →
                     ProductFormHelpers.addTag tag fv = ([], fv)).
  { intros Ht%truthy_true Hi%includes_true.
    unfold ProductFormHelpers.addTag. by rewrite Ht, Hi. }
  assert (Hnew : tag ≠ [] → tag ∉ ProductForm.tags fv →
                 ProductFormHelpers.addTag tag fv
                 = ([], ProductFormHelpers.setTags (ProductForm.tags fv ++ [tag]) fv)).
  { intros Ht%truthy_true Hi%includes_false.
    unfold ProductFormHelpers.addTag. by rewrite Ht, Hi. }
  assert (Hkeys :
    (∀ key, key ≠ js "Enter" → ProductFormHelpers.tagOnKeyDown key tag fv = (tag, fv))
    ∧ ProductFormHelpers.tagOnKeyDown (js "Enter") tag fv
      = ProductFormHelpers.addTag tag fv).
  { split; [|done]. intros key Hkey. unfold ProductFormHelpers.tagOnKeyDown.
    by rewrite bool_decide_eq_false_2. }
  split; [exact Hempty|]. split; [exact Hpresent|]. split; [exact Hnew|].
  subst after.
  destruct (decide (tag = [])) as [->|Ht].
  - simpl. repeat split; try done; try apply Hkeys;
        try (rewrite (proj2 Hkeys); by auto). by rewrite setTags_same.
  - destruct (decide (tag ∈ ProductForm.tags fv)) as [Hin|Hout].
    + rewrite (Hpresent Ht Hin). simpl. rewrite (Hpresent Ht Hin).
      repeat split; try done; try apply Hkeys;
        try (rewrite (proj2 Hkeys); by auto). by rewrite setTags_same.
    + rewrite (Hnew Ht Hout). simpl.
      assert (Hagain :
        ProductFormHelpers.addTag tag
          (ProductFormHelpers.setTags (ProductForm.tags fv ++ [tag]) fv)
        = ([], ProductFormHelpers.setTags (ProductForm.tags fv ++ [tag]) fv)).
      { unfold ProductFormHelpers.addTag. simpl.
        rewrite (proj2 (truthy_true tag) Ht).
        assert (includes tag (ProductForm.tags fv ++ [tag]) = true) as ->; [|done].
        apply includes_true, elem_of_app. right. by apply list_elem_of_singleton. }
      rewrite Hagain.
      repeat split; try done; try apply Hkeys;
        try (rewrite (proj2 Hkeys); by auto).
      * intros Hnd. by apply NoDup_snoc_absent.
      * intros Hnone [Hin | Heq%list_elem_of_singleton]%elem_of_app;
          [done | by apply Ht].
      * apply elem_of_app. right. by apply list_elem_of_singleton.
Qed.

(** X13.  [removeTag(index)] removes the tag at that position and no
    other, also when the same text occurs elsewhere in the list: the tags
    before it and after it stay in order, the list gets shorter by one;
    with an index beyond the list nothing changes. *)
Theorem X13_removeTag
    (index : nat) (fv : ProductForm.ProductFormValues) :
  ProductForm.tags (ProductFormHelpers.removeTag index fv)
  = take index (ProductForm.tags fv) ++ drop (S index) (ProductForm.tags fv)
  ∧ (index < length (ProductForm.tags fv) →
     S (length (ProductForm.tags (ProductFormHelpers.removeTag index fv)))
     = length (ProductForm.tags fv))
  ∧ (length (ProductForm.tags fv) ≤ index → ProductFormHelpers.removeTag index fv = fv)
  ∧ (∀ k, ProductForm.tags (ProductFormHelpers.removeTag index fv) !! k
          = if decide (k < index) then ProductForm.tags fv !! k
            else ProductForm.tags fv !! S k).
Proof.
  assert (Htags : ProductForm.tags (ProductFormHelpers.removeTag index fv)
                  = take index (ProductForm.tags fv) ++ drop (S index) (ProductForm.tags fv)).
  { unfold ProductFormHelpers.removeTag. simpl.
    apply (filterIndexed_remove (ProductForm.tags fv) 0 index). }
  split; [exact Htags|]. split; [|split].
  - intros Hlt. rewrite Htags, length_app, length_take, length_drop. lia.
  - intros Hge. unfold ProductFormHelpers.removeTag.
    pose proof (filterIndexed_remove (ProductForm.tags fv) 0 index) as Hremove.
    simpl in Hremove. rewrite Hremove.
    rewrite take_ge, drop_ge, app_nil_r by lia. apply setTags_same.
  - intros k. rewrite Htags. case_decide as Hk.
    + destruct (decide (index ≤ length (ProductForm.tags fv))) as [Hle|Hgt].
      * rewrite lookup_app_l by (rewrite length_take; lia).
        by rewrite lookup_take_lt.
      * rewrite take_ge, drop_ge, app_nil_r by lia. done.
    + destruct (decide (index ≤ length (ProductForm.tags fv))) as [Hle|Hgt].
      * rewrite lookup_app_r by (rewrite length_take; lia).
        rewrite length_take, lookup_drop. f_equal. lia.
      * rewrite take_ge, drop_ge, app_nil_r by lia.
        rewrite !lookup_ge_None_2 by lia. done.
Qed.

(** X14.  An image upload changes the form only when a file was chosen,
    the request succeeded with an [ok] response and its body could be
    read: with no file nothing happens at all, and in every other case
    the form is left as it was and the "Upload failed" toast is the only
    one raised.  Only the first chosen file is uploaded. *)
Theorem X14_failed_upload_leaves_form
    (fetch : File.t → ProductFormHelpers.FetchOutcome)
    (fv : ProductForm.ProductFormValues) :
  ProductFormHelpers.uploadFeaturedImage [] fetch fv = (fv, [])
  ∧ ProductFormHelpers.uploadAdditionalImage [] fetch fv = (fv, [])
  ∧ (∀ (file : File.t) (others : list File.t),
       (fetch file = ProductFormHelpers.Rejected
        ∨ (∃ body, fetch file = ProductFormHelpers.Response false body)
        ∨ fetch file = ProductFormHelpers.Response true None) →
       ProductFormHelpers.uploadFeaturedImage (file :: others) fetch fv
       = (fv, [ProductFormHelpers.UploadFailed])
       ∧ ProductFormHelpers.uploadAdditionalImage (file :: others) fetch fv
         = (fv, [ProductFormHelpers.UploadFailed]))
  ∧ (∀ (file : File.t) (others others' : list File.t),
       ProductFormHelpers.uploadFeaturedImage (file :: others) fetch fv
       = ProductFormHelpers.uploadFeaturedImage (file :: others') fetch fv
       ∧ ProductFormHelpers.uploadAdditionalImage (file :: others) fetch fv
         = ProductFormHelpers.uploadAdditionalImage (file :: others') fetch fv).
Proof.
  repeat split.
  - simpl. by destruct H as [-> | [[body ->] | ->]].
  - simpl. by destruct H as [-> | [[body ->] | ->]].
Qed.

(** X15.  A successful upload of an additional image appends its url at
    the end of the image list and writes nothing else; [removeImage]
    removes every occurrence of a url and keeps the other images in
    order, so removing an url that was not in the list before its upload
    gives back the form as it was. *)
Theorem X15_upload_then_remove_image
    (file : File.t) (others : list File.t)
    (fetch : File.t → ProductFormHelpers.FetchOutcome)
    (url : jsstring) (fv : ProductForm.ProductFormValues) :
  fetch file = ProductFormHelpers.Response true (Some url) →
  let uploaded := (ProductFormHelpers.uploadAdditionalImage (file :: others) fetch fv).1 in
  uploaded = ProductFormHelpers.setImages (ProductForm.images fv ++ [url]) fv
  ∧ (url ∉ ProductForm.images (ProductFormHelpers.removeImage url uploaded))
  ∧ (filter (λ image, image ≠ url)
       (ProductForm.images (ProductFormHelpers.removeImage url uploaded))
     = filter (λ image, image ≠ url) (ProductForm.images fv))
  ∧ (url ∉ ProductForm.images fv → ProductFormHelpers.removeImage url uploaded = fv)
  ∧ ProductFormHelpers.removeImage url (ProductFormHelpers.removeImage url uploaded)
    = ProductFormHelpers.removeImage url uploaded.
Proof.
  intros Hfetch uploaded. subst uploaded. simpl. rewrite Hfetch. simpl.
  unfold ProductFormHelpers.removeImage. simpl.
  assert (Hf : filter (λ image, image ≠ url) (ProductForm.images fv ++ [url])
               = filter (λ image, image ≠ url) (ProductForm.images fv)).
  { rewrite filter_app, (filter_singleton_False _ url []) by (intros H; by apply H).
    by rewrite app_nil_r. }
  rewrite Hf.
  split; [done|]. split; [apply filter_removes|]. split; [|split].
  - apply filter_absent, filter_removes.
  - intros Hout. rewrite filter_absent by done. by destruct fv.
  - by rewrite filter_absent by apply filter_removes.
Qed.

Lemma X15_witness :
  let file := {| File.name := js "front.png"; File.size := 2048%float;
                 File.type := js "image/png" |} in
  let fv := ProductFormHelpers.setImages [js "/img/a.png"] ProductForm.defaultValues in
  ProductFormHelpers.removeImage (js "/img/b.png")
    (ProductFormHelpers.uploadAdditionalImage [file]
       (λ _, ProductFormHelpers.Response true (Some (js "/img/b.png"))) fv).1
  = fv.
Proof.
  intros file fv.
  refine (proj1 (proj2 (proj2 (proj2
            (X15_upload_then_remove_image file []
               (λ _, ProductFormHelpers.Response true (Some (js "/img/b.png")))
               (js "/img/b.png") fv _)))) _).
  - reflexivity.
  - apply (proj1 (bool_decide_eq_false _)). vm_compute. reflexivity.
Defined.

(** X16.  The selling price input never stores [NaN]: it stores the
    parsed number, or 0 when the text does not parse or parses to zero.
    The generator's own fallback to 0 is therefore the identity on a
    stored price, and every record generated afterwards carries exactly
    the stored price as its selling price. *)
Theorem X16_price_input_feeds_generator
    (toUpperCase : jsstring → jsstring) (randomId : nat → jsstring)
    (parsed : float) (st : ProductForm.State) :
  ProductForm.selectedColors st ≠ [] → ProductForm.selectedSizes st ≠ [] →
  let fv := ProductFormHelpers.sellingPriceOnChange parsed (ProductForm.values st) in
  PrimFloat.is_nan (ProductForm.sellingPrice fv) = false
  ∧ ProductForm.sellingPrice fv = (if truthyNumber parsed then parsed else 0%float)
  ∧ ProductForm.basePriceOf fv = ProductForm.sellingPrice fv
  ∧ ∀ v, v ∈ ProductForm.generatedVariants
               (ProductForm.generateOnClick toUpperCase randomId
                  (ProductFormHelpers.setValues fv st)).1 →
         VariantRecord.sellingPrice v = ProductForm.sellingPrice fv.
Proof.
  intros Hc Hs fv.
  assert (Hnan : PrimFloat.is_nan (ProductForm.sellingPrice fv) = false).
  { subst fv. simpl. unfold truthyNumber.
    destruct (PrimFloat.is_nan parsed) eqn:Hn; simpl; [reflexivity|].
    destruct (PrimFloat.is_zero parsed); simpl; [reflexivity | exact Hn]. }
  assert (Hbase : ProductForm.basePriceOf fv = ProductForm.sellingPrice fv).
  { subst fv. unfold ProductForm.basePriceOf. simpl.
    destruct (truthyNumber parsed) eqn:Hp; [by rewrite Hp | reflexivity]. }
  split; [exact Hnan|]. split; [done|]. split; [exact Hbase|].
  intros v Hv. rewrite generated_rows in Hv by done.
  apply list_elem_of_lookup in Hv as [k Hk]. rewrite list_lookup_imap in Hk.
  destruct (matrix _ _ !! k) as [[c s]|]; simplify_eq/=. exact Hbase.
Qed.

Lemma X16_witness :
  ProductForm.basePriceOf
    (ProductFormHelpers.sellingPriceOnChange PrimFloat.nan ProductForm.defaultValues)
  = 0%float.
Proof.
  refine (proj1 (proj2 (proj2
            (X16_price_input_feeds_generator asciiToUpperCase distinctIds PrimFloat.nan
               (ProductForm.setSelectedSizes [js "S"]
                  (ProductForm.setSelectedColors [js "Red"] ProductForm.initial))
               _ _)))); done.
Defined.

(* ===================================================================== *)
(** ** Tabs of the product editor *)
(* ===================================================================== *)

(** X17.  On the tab strip of the product editor "Next" followed by
    "Previous" returns to the same state from the first four tabs, and
    "Previous" followed by "Next" returns to the same state from the
    second to the fifth tab; neither button touches anything but the
    active tab. *)
Theorem X17_tab_round_trips (st : ProductForm.State) (i : nat) :
  ProductForm.index (ProductForm.activeTab st) = Some i →
  (i < 4 → ProductForm.previousOnClick (ProductForm.nextOnClick st) = st)
  ∧ (1 ≤ i ≤ 4 → ProductForm.nextOnClick (ProductForm.previousOnClick st) = st)
  ∧ ProductForm.nextOnClick st
    = ProductForm.setActiveTab (ProductForm.activeTab (ProductForm.nextOnClick st)) st
  ∧ ProductForm.previousOnClick st
    = ProductForm.setActiveTab (ProductForm.activeTab (ProductForm.previousOnClick st)) st.
Proof.
  intros Hi. destruct st as [tab fv colors sizes rows cc cs].
  unfold ProductForm.nextOnClick, ProductForm.previousOnClick. simpl in *.
  destruct tab; simpl in *; simplify_eq; repeat split; intros; (done || lia).
Qed.

Lemma X17_witness :
  ProductForm.previousOnClick
    (ProductForm.nextOnClick (ProductForm.setActiveTab ProductForm.Tab.category
                                ProductForm.initial))
  = ProductForm.setActiveTab ProductForm.Tab.category ProductForm.initial.
Proof.
  refine (proj1 (X17_tab_round_trips
                   (ProductForm.setActiveTab ProductForm.Tab.category ProductForm.initial)
                   3 _) _).
  - reflexivity.
  - lia.
Defined.

(** X18.  "Next" on the media tab sets a tab value that is not on the
    strip.  In that state neither "Next" nor "Previous" does anything,
    no data of the editor has been lost, and a click on a tab of the
    strip shows that tab. *)
Theorem X18_next_from_media (st : ProductForm.State) :
  ProductForm.activeTab st = ProductForm.Tab.media →
  let after := ProductForm.nextOnClick st in
  ProductForm.index (ProductForm.activeTab after) = None
  ∧ ProductForm.nextOnClick after = after
  ∧ ProductForm.previousOnClick after = after
  ∧ after = ProductForm.setActiveTab ProductForm.Tab.attributes st
  ∧ ∀ t, ProductForm.tabsOnValueChange t after = ProductForm.setActiveTab t st.
Proof.
  intros Hmedia after. subst after.
  destruct st as [tab fv colors sizes rows cc cs]. simpl in Hmedia. subst tab.
  repeat split.
Qed.

Lemma X18_witness :
  ProductForm.previousOnClick
    (ProductForm.nextOnClick
       (ProductForm.setActiveTab ProductForm.Tab.media ProductForm.initial))
  = ProductForm.nextOnClick
      (ProductForm.setActiveTab ProductForm.Tab.media ProductForm.initial).
Proof.
  refine (proj1 (proj2 (proj2
            (X18_next_from_media
               (ProductForm.setActiveTab ProductForm.Tab.media ProductForm.initial) _)))).
  reflexivity.
Defined.

(* ===================================================================== *)
(** ** File upload widget *)
(* ===================================================================== *)

Section UploadWidget.
Import S3FileUpload.

Lemma length_filter_pos_existsb (p : Props) (files : list File.t) :
  (0 <? length (List.filter (tooLarge p) files)) = existsb (tooLarge p) files.
Proof.
  induction files as [|f files IH]; [done|]. simpl.
  destruct (tooLarge p f); simpl; [done | exact IH].
Qed.

Lemma filter_none_forallb (p : Props) (files : list File.t) :
  existsb (tooLarge p) files = false → Forall (λ f, tooLarge p f = false) files.
Proof.
  induction files as [|f files IH]; simpl; [by constructor|].
  intros [Hf Hrest]%orb_false_iff. constructor; [done | by apply IH].
Qed.

Lemma preview_selection (p : Props) (candidate : option File.t) (st : State) :
  selectedFile (preview p candidate st).1 = selectedFile st
  ∧ selectedFiles (preview p candidate st).1 = selectedFiles st.
Proof. unfold preview. destruct candidate; [destruct (showPreview p)|]; done. Qed.

Lemma run_snoc_upload (p : Props) (events : list Event) (e : Event) :
  run p (events ++ [e]) = handle p (run p events) e.
Proof. unfold run. by rewrite fold_left_app. Qed.

(** One event keeps: the slot of the other mode is empty and no selected
    file exceeds the limit. *)
Lemma handle_keeps_selection (p : Props) (st : State) (e : Event) :
  (multiple p = true → selectedFile st = None)
  ∧ (multiple p = false → selectedFiles st = [])
  ∧ (∀ f, selectedFile st = Some f → tooLarge p f = false)
  ∧ Forall (λ f, tooLarge p f = false) (selectedFiles st) →
  (multiple p = true → selectedFile (handle p st e) = None)
  ∧ (multiple p = false → selectedFiles (handle p st e) = [])
  ∧ (∀ f, selectedFile (handle p st e) = Some f → tooLarge p f = false)
  ∧ Forall (λ f, tooLarge p f = false) (selectedFiles (handle p st e)).
Proof.
  intros (Hm & Hs & Hone & Hall).
  destruct e as [files|result| |]; simpl; try done.
  unfold handleFileChange. destruct files as [|file others]; [done|].
  destruct (multiple p) eqn:Hmode.
  - rewrite length_filter_pos_existsb.
    destruct (existsb (tooLarge p) (file :: others)) eqn:Hex; [done|].
    destruct (preview_selection p (List.find isImage (file :: others))
                (setSelectedFiles (file :: others) st)) as [-> ->].
    simpl. repeat split; try done. by apply filter_none_forallb.
  - destruct (tooLarge p file) eqn:Hbig; [done|].
    destruct (preview_selection p (if isImage file then Some file else None)
                (setSelectedFile (Some file) st)) as [-> ->].
    simpl. repeat split; try done. by intros f [= <-].
Qed.

Lemma run_keeps_selection (p : Props) (events : list Event) :
  (multiple p = true → selectedFile (run p events) = None)
  ∧ (multiple p = false → selectedFiles (run p events) = [])
  ∧ (∀ f, selectedFile (run p events) = Some f → tooLarge p f = false)
  ∧ Forall (λ f, tooLarge p f = false) (selectedFiles (run p events)).
Proof.
  induction events as [|e events IH] using rev_ind.
  - repeat split; try done; by constructor.
  - rewrite run_snoc_upload. by apply handle_keeps_selection.
Qed.

End UploadWidget.

(** X19.  Choosing files is all or nothing.  With no file the widget
    does not react.  In multiple mode, if any chosen file exceeds the
    size limit the selection made before stays as it is and one toast
    reports how many files are too large; otherwise all chosen files are
    selected, in the order chosen, however many they are.  In single mode
    only the first chosen file counts: it is refused with a toast when it
    exceeds the limit and selected otherwise. *)
Theorem X19_choosing_files
    (p : S3FileUpload.Props) (file : File.t) (others : list File.t)
    (st : S3FileUpload.State) :
  S3FileUpload.handleFileChange p [] st = (st, [])
  ∧ (S3FileUpload.multiple p = true →
     if existsb (S3FileUpload.tooLarge p) (file :: others)
     then S3FileUpload.handleFileChange p (file :: others) st
          = (st, [S3FileUpload.ShowToast
                    (S3FileUpload.FilesTooLarge
                       (length (List.filter (S3FileUpload.tooLarge p) (file :: others))))])
          ∧ 1 ≤ length (List.filter (S3FileUpload.tooLarge p) (file :: others))
     else S3FileUpload.selectedFiles
            (S3FileUpload.handleFileChange p (file :: others) st).1
          = file :: others
          ∧ S3FileUpload.selectedFile
              (S3FileUpload.handleFileChange p (file :: others) st).1
            = S3FileUpload.selectedFile st)
  ∧ (S3FileUpload.multiple p = false →
     if S3FileUpload.tooLarge p file
     then S3FileUpload.handleFileChange p (file :: others) st
          = (st, [S3FileUpload.ShowToast S3FileUpload.FileTooLarge])
     else S3FileUpload.selectedFile
            (S3FileUpload.handleFileChange p (file :: others) st).1
          = Some file
          ∧ S3FileUpload.selectedFiles
              (S3FileUpload.handleFileChange p (file :: others) st).1
            = S3FileUpload.selectedFiles st).
Proof.
  split; [done|]. split; intros Hmode; unfold S3FileUpload.handleFileChange;
    rewrite Hmode.
  - rewrite length_filter_pos_existsb.
    destruct (existsb _ _) eqn:Hex.
    + split; [done|]. rewrite <- length_filter_pos_existsb in Hex.
      apply Nat.ltb_lt in Hex. lia.
    + destruct (preview_selection p
                  (List.find S3FileUpload.isImage (file :: others))
                  (S3FileUpload.setSelectedFiles (file :: others) st)) as [-> ->].
      done.
  - destruct (S3FileUpload.tooLarge p file); [done|].
    destruct (preview_selection p
                (if S3FileUpload.isImage file then Some file else None)
                (S3FileUpload.setSelectedFile (Some file) st)) as [-> ->].
    done.
Qed.

(** X20.  In every session of the widget no file above the size limit is
    ever selected, and so none is ever uploaded: each part of a request
    sent by "Upload" carries a file within the limit.  In multiple mode
    the single-file slot stays empty and in single mode the file list
    stays empty. *)
Theorem X20_no_oversized_upload
    (p : S3FileUpload.Props) (events : list S3FileUpload.Event) :
  (S3FileUpload.multiple p = true →
   S3FileUpload.selectedFile (S3FileUpload.run p events) = None)
  ∧ (S3FileUpload.multiple p = false →
     S3FileUpload.selectedFiles (S3FileUpload.run p events) = [])
  ∧ (∀ f, S3FileUpload.selectedFile (S3FileUpload.run p events) = Some f
          ∨ f ∈ S3FileUpload.selectedFiles (S3FileUpload.run p events) →
          S3FileUpload.tooLarge p f = false)
  ∧ (∀ request part,
       S3FileUpload.handleUpload p (S3FileUpload.run p events) = Some request →
       part ∈ S3FileUpload.parts request →
       S3FileUpload.tooLarge p part.2 = false).
Proof.
  destruct (run_keeps_selection p events) as (Hm & Hs & Hone & Hall).
  rewrite Forall_forall in Hall.
  split; [done|]. split; [done|]. split.
  - intros f [Hf|Hf]; auto.
  - intros request part. unfold S3FileUpload.handleUpload.
    destruct (S3FileUpload.multiple p && _).
    + intros [= <-]. simpl. intros (f & -> & Hf)%list_elem_of_fmap. simpl. auto.
    + destruct (S3FileUpload.selectedFile _) as [f|] eqn:Hsel; [|done].
      intros [= <-]. simpl. intros ->%list_elem_of_singleton. simpl. auto.
Qed.

(** X21.  What "Upload" sends in a session.  In multiple mode: nothing
    when no files are selected, else one request with every selected
    file, in order, each under the field name "files".  In single mode:
    nothing when no file is selected, else one request with that file
    alone, under "image" for the product-image endpoint and under "file"
    for the others.  The request goes to the endpoint of the props in
    both modes.  After the selection is cleared, and after a multiple
    upload has succeeded, "Upload" sends nothing. *)
Theorem X21_what_upload_sends
    (p : S3FileUpload.Props) (events : list S3FileUpload.Event) :
  let st := S3FileUpload.run p events in
  (S3FileUpload.multiple p = true →
   S3FileUpload.handleUpload p st
   = match S3FileUpload.selectedFiles st with
     | [] => None
     | _ :: _ =>
         Some {| S3FileUpload.path := S3FileUpload.endpoint p;
                 S3FileUpload.parts :=
                   (λ f, (js "files", f)) <$> S3FileUpload.selectedFiles st |}
     end)
  ∧ (S3FileUpload.multiple p = false →
     S3FileUpload.handleUpload p st
     = (λ f, {| S3FileUpload.path := S3FileUpload.endpoint p;
                S3FileUpload.parts :=
                  [(match S3FileUpload.endpoint p with
                    | S3FileUpload.upload_product_image => js "image"
                    | S3FileUpload.upload | S3FileUpload.upload_multiple => js "file"
                    end, f)] |})
       <$> S3FileUpload.selectedFile st)
  ∧ S3FileUpload.handleUpload p
      (S3FileUpload.run p (events ++ [S3FileUpload.SelectionCleared])) = None
  ∧ S3FileUpload.handleUpload p
      (S3FileUpload.run p (events ++ [S3FileUpload.MultipleUploadSucceeded])) = None.
Proof.
  intros st. subst st.
  destruct (run_keeps_selection p events) as (Hm & Hs & _ & _).
  split; [|split; [|split]].
  - intros Hmode. unfold S3FileUpload.handleUpload. rewrite Hmode, (Hm Hmode).
    by destruct (S3FileUpload.selectedFiles _).
  - intros Hmode. unfold S3FileUpload.handleUpload. rewrite Hmode. simpl.
    destruct (S3FileUpload.selectedFile _); [|done]. simpl.
    unfold S3FileUpload.uploadRequest.
    by destruct (S3FileUpload.endpoint p).
  - rewrite run_snoc_upload. unfold S3FileUpload.handleUpload. simpl.
    by rewrite andb_false_r.
  - rewrite run_snoc_upload. unfold S3FileUpload.handleUpload. simpl.
    by rewrite andb_false_r.
Qed.

(* ===================================================================== *)
(** ** Deleting a row whose identifier is its own *)
(* ===================================================================== *)

(** X22.  When the identifiers of the generated records are pairwise
    distinct, the delete button of a row removes that row's record and
    nothing else: the records before it and after it stay, in order, and
    the collection is shorter by one.  When no record carries the row's
    identifier the state does not change, so a second click on the same
    row removes nothing more.  The toast names the row's colour and
    size. *)
Theorem X22_delete_with_distinct_identifiers
    (variant : VariantRecord.t) (st : ProductForm.State) :
  NoDup (VariantRecord.id <$> ProductForm.generatedVariants st) →
  let rest := ProductForm.generatedVariants (ProductForm.removeOnClick variant st).1 in
  (∀ before after,
     ProductForm.generatedVariants st = before ++ variant :: after →
     rest = before ++ after)
  ∧ (VariantRecord.id variant ∈ VariantRecord.id <$> ProductForm.generatedVariants st →
     S (length rest) = length (ProductForm.generatedVariants st))
  ∧ (VariantRecord.id variant ∉ VariantRecord.id <$> ProductForm.generatedVariants st →
     (ProductForm.removeOnClick variant st).1 = st)
  ∧ (ProductForm.removeOnClick variant (ProductForm.removeOnClick variant st).1).1
    = (ProductForm.removeOnClick variant st).1
  ∧ (ProductForm.removeOnClick variant st).1 = ProductForm.setGeneratedVariants rest st
  ∧ (ProductForm.removeOnClick variant st).2
    = [ProductForm.VariantRemoved (VariantRecord.color variant)
         (VariantRecord.size variant)].
Proof.
  intros Hnd rest. subst rest. simpl.
  split; [|split; [|split; [|split]]].
  - intros before after Hgv. rewrite Hgv in Hnd |- *.
    rewrite fmap_app, fmap_cons in Hnd.
    apply NoDup_app in Hnd as (_ & Hsep & [Hafter _]%NoDup_cons).
    rewrite filter_app, filter_cons_False by (intros H; by apply H).
    rewrite (filter_id_absent _ before), (filter_id_absent _ after); [done|done|].
    intros Hin. apply (Hsep _ Hin). by left.
  - by apply length_filter_id_NoDup.
  - intros Hout. rewrite filter_id_absent by done. by destruct st.
  - unfold ProductForm.setGeneratedVariants. simpl.
    by rewrite filter_id_absent by apply id_not_in_filter.
  - done.
Qed.

Lemma X22_witness :
  let st := (ProductForm.generateOnClick asciiToUpperCase distinctIds
               (ProductForm.setSelectedSizes [js "S"; js "M"]
                  (ProductForm.setSelectedColors [js "Red"; js "Blue"]
                     ProductForm.initial))).1 in
  let row := ProductForm.newVariant (distinctIds 2) (js "Blue") (js "S") (js "PRD") 0%float in
  (λ v, (VariantRecord.color v, VariantRecord.size v))
    <$> ProductForm.generatedVariants (ProductForm.removeOnClick row st).1
  = [(js "Red", js "S"); (js "Red", js "M"); (js "Blue", js "M")].
Proof.
  intros st row.
  assert (Hdistinct : NoDup (VariantRecord.id <$> ProductForm.generatedVariants st)).
  { apply (bool_decide_unpack _). vm_compute. reflexivity. }
  pose proof (proj1 (X22_delete_with_distinct_identifiers row st Hdistinct)
                (take 2 (ProductForm.generatedVariants st))
                (drop 3 (ProductForm.generatedVariants st)) eq_refl) as Hone.
  exact (eq_trans
           (f_equal (fmap (λ v, (VariantRecord.color v, VariantRecord.size v))) Hone)
           eq_refl).
Defined.
